(** * apps/users/forms.py: the user forms, embedded and verified

    The module is a set of Django form classes.  Each [clean_*], [clean],
    [__init__] and [save] method is embedded below as a function on the
    form's per-request state: the [cleaned_data] dictionary, the [_errors]
    dictionary, the [fields] dictionary, and, for the methods that log,
    touch the file system or the task queue, an explicit [World].

    Python exceptions are the [Raise] outcome of a [result]; a dictionary
    is a [gmap] keyed by [string]; text submitted by the browser is a
    Python 2 [unicode] object, a list of code points. *)

From Stdlib Require Import ZArith NArith String Ascii List Bool Lia DecimalString.
From stdpp Require Import gmap strings list.

Local Open Scope string_scope.

(** ** Python values *)

(** A [unicode] object: the sequence of its code points. *)
Abbreviation unicode := (list N) (only parsing).

(** A byte-string literal of the source, read as [unicode]. *)
Definition u (s : string) : list N :=
  map N_of_ascii (list_ascii_of_string s).

(** django.core.files.uploadedfile.UploadedFile, as far as the forms read
    it: [name], [content_type], [size] and the chunks [chunks()] yields. *)
Record UploadedFile := {
  name : string;
  content_type : string;
  size : Z;
  chunks : list string
}.

(** The values a [cleaned_data] dictionary holds, and [None]. *)
Inductive value :=
| VNone
| VBool (b : bool)
| VStr (s : unicode)
| VFile (f : UploadedFile).

#[global] Instance UploadedFile_eq_dec : EqDecision UploadedFile.
Proof. solve_decision. Defined.

#[global] Instance value_eq_dec : EqDecision value.
Proof. solve_decision. Defined.

(** Truth value of an object in an [if]: [None], [False] and the empty
    string are false; a [File] is true when its [name] is not empty
    ([File.__nonzero__] returns [bool(self.name)]). *)
Definition truthy (v : value) : bool :=
  match v with
  | VNone => false
  | VBool b => b
  | VStr s => negb (bool_decide (s = []))
  | VFile f => negb (bool_decide (name f = ""))
  end.

(** [a != b].  Strings compare by content and [None] equals only itself.
    (File objects compare by identity; a form holds an upload once.) *)
Definition py_ne (a b : value) : bool := negb (bool_decide (a = b)).

(** ** Exceptions and outcomes *)

Inductive exn :=
| KeyError (key : string)
| AttributeError (attr : string)
| ValidationError (message : string).

Inductive result (A : Type) :=
| Return (a : A)
| Raise (e : exn).
Arguments Return {A} a.
Arguments Raise {A} e.

(** [d[k]] *)
Definition getitem {V} (d : gmap string V) (k : string) : result V :=
  match d !! k with
  | Some v => Return v
  | None => Raise (KeyError k)
  end.

(** [d.get(k)] *)
Definition dict_get (d : gmap string value) (k : string) : value :=
  default VNone (d !! k).

(** [del d[k]] *)
Definition delitem {V} (d : gmap string V) (k : string) : result (gmap string V) :=
  match d !! k with
  | Some _ => Return (delete k d)
  | None => Raise (KeyError k)
  end.

(** django.forms.util.ErrorList: the messages recorded for one field. *)
Abbreviation ErrorList := (list string) (only parsing).

(** ** The collaborators of the module

    The ORM models, the settings, the translation catalogue and the
    operating system are not part of this file; the forms only call them. *)

(** models.UserProfile, as far as the forms read and write it.
    [picture_dir] and [picture_path] are read-only properties. *)
Record UserProfile := {
  username : unicode;
  password : string;
  is_developer : bool;
  picture_type : string;
  picture_dir : string;
  picture_path : string
}.

(** django.contrib.auth.models.User of the request. *)
Record User := {
  user_id : Z;
  profile : UserProfile
}.

(** [user.get_profile()] *)
Definition get_profile (usr : User) : UserProfile := profile usr.

(** The request a form is constructed with, read only for its [user]. *)
Record Request := { user : User }.

(** A form field.  Only the identity of a field matters to this module:
    field objects are never false in an [if]. *)
Inductive Field :=
| CharField (max_length : Z) (required : bool)
| BooleanField (required : bool)
| FileField (label : string) (required : bool)
| ReCaptchaField
| ModelField (column : string).

(** The platforms of the [os] module, told apart by their [os.linesep]. *)
Inductive Platform := posix | nt | mac.

Class Collaborators := {
  (** tower.ugettext, imported as [_] *)
  ugettext : string -> string;
  (** UserProfile.check_password(raw): does [raw] hash to the stored
      credential of the profile *)
  check_password : UserProfile -> value -> bool;
  (** the hash UserProfile.set_password stores for a raw password *)
  create_password : value -> string;
  (** BlacklistedUsername.blocked(name) *)
  blocked : value -> bool;
  (** settings.RECAPTCHA_PRIVATE_KEY *)
  RECAPTCHA_PRIVATE_KEY : value;
  (** settings.MAX_PHOTO_UPLOAD_SIZE, in bytes *)
  MAX_PHOTO_UPLOAD_SIZE : Z;
  (** os.name, the platform the server runs on *)
  os_name : Platform;
  (** [unicode(user)] and [unicode(profile)], as ['%s'] formats them *)
  User_unicode : User -> string;
  UserProfile_unicode : UserProfile -> string;
  (** the form fields Django derives from the columns of UserProfile *)
  fields_for_model : gmap string Field;
  (** ModelForm.save(commit=False): the profile built from cleaned data *)
  ModelForm_save : gmap string value -> UserProfile
}.

(** Modelled from the spec: UserProfile.set_password lives in models.py;
    the spec names it the "password-set" operation of the profile model.
    It replaces the stored credential and nothing else. *)
Definition set_password `{Collaborators} (p : UserProfile) (raw : value) : UserProfile :=
  {| username := username p;
     password := create_password raw;
     is_developer := is_developer p;
     picture_type := picture_type p;
     picture_dir := picture_dir p;
     picture_path := picture_path p |}.

(** ['%d' % n] *)
Definition format_d (n : Z) : string := NilZero.string_of_int (Z.to_int n).

(** ** Effects: the log, the file system and the task queue

    [log] is the logger ['z.users']; files are read and written through
    [open], [write] and [close]; [tasks.resize_photo.delay] appends a job
    to the queue of the task broker, which nothing in this module reads;
    [saved] are the profiles written to the database by [u.save()].
    [trace] records every effect in the order it happened.  Failures of
    the operating system (a full disk, a missing permission) are outside
    the model. *)

Inductive Level := DEBUG | INFO | WARNING.

Inductive Event :=
| EvLog (level : Level) (msg : string)
| EvExists (path : string)
| EvMakedirs (path : string)
| EvOpen (path : string) (mode : string)
| EvWrite (path : string) (chunk : string)
| EvClose (path : string)
| EvDelay (src dst : string)
| EvSave (p : UserProfile).

Record World := {
  log : list (Level * string);
  dirs : gset string;
  files : gmap string string;
  opened : gset string;
  queue : list (string * string);
  saved : list UserProfile;
  trace : list Event
}.

(** A computation with effects: it runs in a world, changes it, and
    returns or raises.  The world keeps what happened before a raise. *)
Definition IO (A : Type) : Type := World -> result A * World.

Definition ret {A} (a : A) : IO A := fun w => (Return a, w).

Definition throw {A} (e : exn) : IO A := fun w => (Raise e, w).

Definition bind {A B} (m : IO A) (k : A -> IO B) : IO B :=
  fun w =>
    match m w with
    | (Return a, w') => k a w'
    | (Raise e, w') => (Raise e, w')
    end.

(** Lift a pure outcome, such as a dictionary access. *)
Definition lift {A} (r : result A) : IO A := fun w => (r, w).

Declare Scope io_scope.
Delimit Scope io_scope with io.
Notation "x <- m ;; k" := (bind m (fun x => k))
  (at level 100, m at next level, right associativity) : io_scope.
Notation "m ;;; k" := (bind m (fun _ => k))
  (at level 100, right associativity) : io_scope.

Definition emit (e : Event) (w : World) : World :=
  {| log := log w; dirs := dirs w; files := files w; opened := opened w;
     queue := queue w; saved := saved w; trace := trace w ++ [e] |}.

(** [log.debug], [log.info], [log.warning] *)
Definition log_msg (l : Level) (msg : string) : IO unit := fun w =>
  (Return tt,
   emit (EvLog l msg)
     {| log := log w ++ [(l, msg)]; dirs := dirs w; files := files w;
        opened := opened w; queue := queue w; saved := saved w;
        trace := trace w |}).

(** [os.path.exists(path)] *)
Definition os_path_exists (path : string) : IO bool := fun w =>
  (Return (bool_decide (path ∈ dirs w) || bool_decide (is_Some (files w !! path))),
   emit (EvExists path) w).

(** [os.makedirs(path)] *)
Definition os_makedirs (path : string) : IO unit := fun w =>
  (Return tt,
   emit (EvMakedirs path)
     {| log := log w; dirs := {[path]} ∪ dirs w; files := files w;
        opened := opened w; queue := queue w; saved := saved w;
        trace := trace w |}).

(** [open(path, 'w')]: the file is created or truncated; the handle is
    the path. *)
Definition open_w (path : string) : IO string := fun w =>
  (Return path,
   emit (EvOpen path "w")
     {| log := log w; dirs := dirs w; files := <[path := ""]> (files w);
        opened := {[path]} ∪ opened w; queue := queue w; saved := saved w;
        trace := trace w |}).

(** What a file opened in text mode (mode 'w', without 'b') stores for the
    characters written to it: the C library replaces each line feed by the
    line separator of the platform.  On POSIX that changes nothing; on
    Windows every LF is stored as CR LF. *)
Fixpoint text_mode `{Collaborators} (s : string) : string :=
  match s with
  | EmptyString => EmptyString
  | String c rest =>
      if bool_decide (c = "010"%char) then
        match os_name with
        | posix => String "010" (text_mode rest)
        | nt => String "013" (String "010" (text_mode rest))
        | mac => String "013" (text_mode rest)
        end
      else String c (text_mode rest)
  end.

(** [fh.write(chunk)], on a handle opened in text mode *)
Definition fh_write `{Collaborators} (fh : string) (chunk : string) : IO unit := fun w =>
  (Return tt,
   emit (EvWrite fh chunk)
     {| log := log w; dirs := dirs w;
        files := <[fh := default "" (files w !! fh) ++ text_mode chunk]> (files w);
        opened := opened w; queue := queue w; saved := saved w;
        trace := trace w |}).

(** [fh.close()] *)
Definition fh_close (fh : string) : IO unit := fun w =>
  (Return tt,
   emit (EvClose fh)
     {| log := log w; dirs := dirs w; files := files w;
        opened := opened w ∖ {[fh]}; queue := queue w; saved := saved w;
        trace := trace w |}).

(** [tasks.resize_photo.delay(src, dst)]: the job is queued and the call
    returns at once; its result object is dropped by the caller. *)
Definition resize_photo_delay (src dst : string) : IO unit := fun w =>
  (Return tt,
   emit (EvDelay src dst)
     {| log := log w; dirs := dirs w; files := files w; opened := opened w;
        queue := queue w ++ [(src, dst)]; saved := saved w;
        trace := trace w |}).

(** [u.save()] *)
Definition model_save (p : UserProfile) : IO unit := fun w =>
  (Return tt,
   emit (EvSave p)
     {| log := log w; dirs := dirs w; files := files w; opened := opened w;
        queue := queue w; saved := saved w ++ [p]; trace := trace w |}).

(** ** Python 2 text methods

    [unicode.splitlines], [unicode.strip] and [str.join], after CPython 2.7
    (Objects/unicodeobject.c and the generated table unicodetype_db.h). *)

(** Py_UNICODE_ISLINEBREAK *)
Definition Py_UNICODE_ISLINEBREAK (c : N) : bool :=
  match c with
  | 0x0A | 0x0B | 0x0C | 0x0D | 0x1C | 0x1D | 0x1E | 0x85 | 0x2028 | 0x2029 => true
  | _ => false
  end%N.

(** Py_UNICODE_ISSPACE *)
Definition Py_UNICODE_ISSPACE (c : N) : bool :=
  (((0x09 <=? c) && (c <=? 0x0D)) || ((0x1C <=? c) && (c <=? 0x20))
   || ((0x2000 <=? c) && (c <=? 0x200A))
   || match c with
      | 0x85 | 0xA0 | 0x1680 | 0x180E | 0x2028 | 0x2029 | 0x202F | 0x205F | 0x3000 => true
      | _ => false
      end)%N.

Definition CR : N := 0x0D%N.
Definition LF : N := 0x0A%N.

(** The loop of [unicode.splitlines()] (keepends false).  [cur] holds, in
    reverse, the characters read since the last line break.  A line break
    ends the current line; CR followed by LF is one break.  At the end of
    the text a last line without a break is kept, unless it is empty. *)
Fixpoint splitlines_from (cur : list N) (s : list N) : list (list N) :=
  match s with
  | [] => match cur with [] => [] | _ => [rev cur] end
  | c :: rest =>
      if Py_UNICODE_ISLINEBREAK c then
        rev cur ::
          match rest with
          | c' :: rest' =>
              if bool_decide (c = CR) && bool_decide (c' = LF)
              then splitlines_from [] rest'
              else splitlines_from [] rest
          | [] => splitlines_from [] rest
          end
      else splitlines_from (c :: cur) rest
  end.

Definition splitlines (s : list N) : list (list N) := splitlines_from [] s.

(** [s.lstrip()], [s.rstrip()], [s.strip()] *)
Fixpoint lstrip (s : list N) : list N :=
  match s with
  | c :: rest => if Py_UNICODE_ISSPACE c then lstrip rest else s
  | [] => []
  end.

Definition rstrip (s : list N) : list N := rev (lstrip (rev s)).

Definition strip (s : list N) : list N := rstrip (lstrip s).

(** [sep.join(parts)] *)
Fixpoint join (sep : list N) (parts : list (list N)) : list N :=
  match parts with
  | [] => []
  | [p] => p
  | p :: rest => p ++ sep ++ join sep rest
  end.

(** [os.linesep] *)
Definition linesep `{Collaborators} : list N :=
  match os_name with
  | posix => [LF]
  | nt => [CR; LF]
  | mac => [CR]
  end.

(** ** Outcomes compose *)

#[global] Instance result_ret : MRet result := fun _ a => Return a.

#[global] Instance result_bind : MBind result := fun _ _ k r =>
  match r with
  | Return a => k a
  | Raise e => Raise e
  end.

(** [self.request.user]; [request] is [None] when the form was constructed
    without the keyword. *)
Definition request_user (request : option Request) : result User :=
  match request with
  | Some r => Return (user r)
  | None => Raise (AttributeError "user")
  end.

(** ** class PasswordResetForm(auth_forms.PasswordResetForm) *)
Module PasswordResetForm.
Section methods.
Context `{Collaborators}.

(** [super(PasswordResetForm, self).save], called with the keyword
    arguments of the caller: the method of the base class in
    django.contrib.auth, whatever it does. *)
Variable base_save : IO unit.

(** [for user in self.users_cache: log.info(...)] *)
Fixpoint log_users (users_cache : list User) : IO unit :=
  match users_cache with
  | [] => ret tt
  | usr :: rest =>
      (log_msg INFO
         ("Password reset email sent for user (" ++ User_unicode usr ++ ")");;;
       log_users rest)%io
  end.

Definition save (users_cache : list User) : IO unit :=
  (log_users users_cache;;; base_save)%io.

End methods.
End PasswordResetForm.

(** ** class UserDeleteForm(forms.Form) *)
Module UserDeleteForm.
Section methods.
Context `{Collaborators}.

Definition clean_password (request : option Request)
    (cleaned_data : gmap string value) : result value :=
  let data := cleaned_data in
  usr ← request_user request;
  let amouser := get_profile usr in
  pw ← getitem data "password";
  if negb (check_password amouser pw)
  then Raise (ValidationError (ugettext "Wrong password entered!"))
  else Return VNone.

Definition clean (request : option Request) : IO value :=
  (usr <- lift (request_user request);;
   let amouser := get_profile usr in
   if is_developer amouser then
     log_msg WARNING
       ("[Tampering] Attempt to delete developer account ("
          ++ User_unicode usr ++ ")");;;
     throw (ValidationError "")
   else ret VNone)%io.

End methods.
End UserDeleteForm.

(** ** class UserRegisterForm(happyforms.ModelForm) *)
Module UserRegisterForm.
Section methods.
Context `{Collaborators}.

(** The fields declared in the class body. *)
Definition declared_fields : gmap string Field :=
  {[ "password" := CharField 255 true;
     "password2" := CharField 255 true;
     "recaptcha" := ReCaptchaField ]}.

(** The fields of the class: those of the model (Meta.model is
    UserProfile, nothing excluded), overridden by the declared ones. *)
Definition base_fields : gmap string Field :=
  declared_fields ∪ fields_for_model.

(** [__init__], on the fields of the class that is being constructed. *)
Definition __init__ (fields : gmap string Field) : result (gmap string Field) :=
  if negb (truthy RECAPTCHA_PRIVATE_KEY)
  then delitem fields "recaptcha"
  else Return fields.

Definition clean_username (cleaned_data : gmap string value) : result value :=
  name ← getitem cleaned_data "username";
  if blocked name
  then Raise (ValidationError (ugettext "This username is invalid."))
  else Return name.

(** [clean] works on [self.cleaned_data] and [self._errors] in place and
    returns the former.  The [clean] of the base class changes neither. *)
Definition clean (cleaned_data : gmap string value)
    (_errors : gmap string (list string))
    : result (gmap string value * gmap string (list string)) :=
  let data := cleaned_data in
  let p1 := dict_get data "password" in
  let p2 := dict_get data "password2" in
  if py_ne p1 p2 then
    let msg := ugettext "The passwords did not match." in
    let _errors := <["password2" := [msg]]> _errors in
    if truthy p2 then
      data ← delitem data "password2";
      Return (data, _errors)
    else Return (data, _errors)
  else Return (data, _errors).

End methods.
End UserRegisterForm.

(** ** class UserEditForm(UserRegisterForm) *)
Module UserEditForm.
Section methods.
Context `{Collaborators}.

(** The fields declared in the class body, over those inherited from
    UserRegisterForm. *)
Definition declared_fields : gmap string Field :=
  ({[ "oldpassword" := CharField 255 false;
      "password" := CharField 255 false;
      "password2" := CharField 255 false;
      "photo" := FileField "Profile Photo" false ]} : gmap string Field)
  ∪ UserRegisterForm.declared_fields.

(** Meta.exclude is ['password']: the column is left out of the model's
    fields; the declared field of that name stays. *)
Definition base_fields : gmap string Field :=
  declared_fields ∪ delete "password" fields_for_model.

(** [__init__]: the base class goes first; then, if [fields.get] finds a
    'recaptcha' field (a field object is true), it is deleted. *)
Definition __init__ (fields : gmap string Field) : result (gmap string Field) :=
  fields ← UserRegisterForm.__init__ fields;
  match fields !! "recaptcha" with
  | Some _ => delitem fields "recaptcha"
  | None => Return fields
  end.

Definition clean (request : option Request)
    (cleaned_data : gmap string value) (_errors : gmap string (list string))
    : result (gmap string value * gmap string (list string)) :=
  let data := cleaned_data in
  usr ← request_user request;
  let amouser := get_profile usr in
  let p1 := dict_get data "password" in
  let p2 := dict_get data "password2" in
  '(data, _errors) ←
    (if truthy p1 || truthy p2 then
       old ← getitem data "oldpassword";
       if negb (check_password amouser old) then
         let msg := ugettext "Wrong password entered!" in
         let _errors := <["oldpassword" := [msg]]> _errors in
         data ← delitem data "oldpassword";
         Return (data, _errors)
       else Return (data, _errors)
     else Return (data, _errors));
  UserRegisterForm.clean data _errors.

Definition clean_photo (cleaned_data : gmap string value) : result value :=
  photo ← getitem cleaned_data "photo";
  if negb (truthy photo) then Return VNone
  else
    match photo with
    | VFile f =>
        if negb (bool_decide (content_type f = "image/png")
                 || bool_decide (content_type f = "image/jpeg"))
        then Raise (ValidationError
                      (ugettext "Images must be either PNG or JPG."))
        else if (size f >? MAX_PHOTO_UPLOAD_SIZE)%Z
        then Raise (ValidationError
                      (ugettext
                         ("Please use images smaller than "
                            ++ format_d (MAX_PHOTO_UPLOAD_SIZE / 1024 / 1024 - 1)%Z
                            ++ "MB.")))
        else Return photo
    | _ => Raise (AttributeError "content_type")
    end.

(** [u.picture_type = t] *)
Definition set_picture_type (p : UserProfile) (t : string) : UserProfile :=
  {| username := username p;
     password := password p;
     is_developer := is_developer p;
     picture_type := t;
     picture_dir := picture_dir p;
     picture_path := picture_path p |}.

(** [for chunk in chunks: fh.write(chunk)] *)
Fixpoint write_chunks (fh : string) (cs : list string) : IO unit :=
  match cs with
  | [] => ret tt
  | chunk :: rest => (fh_write fh chunk ;;; write_chunks fh rest)%io
  end.

Definition save (cleaned_data : gmap string value) : IO UserProfile :=
  (let p := ModelForm_save cleaned_data in
   let data := cleaned_data in
   photo <- lift (getitem data "photo");;
   p <- (if truthy photo then
           let p := set_picture_type p "image/png" in
           let tmp_destination := picture_path p ++ "__unconverted" in
           there <- os_path_exists (picture_dir p);;
           (if negb there then os_makedirs (picture_dir p) else ret tt);;;
           fh <- open_w tmp_destination;;
           cs <- lift (match photo with
                       | VFile f => Return (chunks f)
                       | _ => Raise (AttributeError "chunks")
                       end);;
           write_chunks fh cs;;;
           fh_close fh;;;
           resize_photo_delay tmp_destination (picture_path p);;;
           ret p
         else ret p);;
   pw <- lift (getitem data "password");;
   p <- (if truthy pw then
           let p := set_password p pw in
           log_msg INFO
             ("User (" ++ UserProfile_unicode p ++ ") changed their password");;;
           ret p
         else ret p);;
   log_msg DEBUG
     ("User (" ++ UserProfile_unicode p ++ ") updated their profile");;;
   model_save p;;;
   ret p)%io.

End methods.
End UserEditForm.

(** ** class BlacklistedUsernameAddForm(forms.Form) *)
Module BlacklistedUsernameAddForm.
Section methods.
Context `{Collaborators}.

(** [os.linesep.join([s.strip() for s in text.splitlines() if s.strip()])] *)
Definition normalize (text : list N) : list N :=
  join linesep
    (map strip
       (List.filter (fun s => truthy (VStr (strip s))) (splitlines text))).

Definition clean (cleaned_data : gmap string value)
    (_errors : gmap string (list string))
    : result (gmap string value * gmap string (list string)) :=
  let data := cleaned_data in
  data ←
    match data !! "usernames" with
    | Some (VStr text) => Return (<["usernames" := VStr (normalize text)]> data)
    | Some _ => Raise (AttributeError "splitlines")
    | None => Return data
    end;
  if match data !! "usernames" with
     | None => true
     | Some v => bool_decide (v = VStr [])
     end
  then
    let msg := "Please enter at least one username to blacklist." in
    Return (data, <["usernames" := [msg]]> _errors)
  else Return (data, _errors).

End methods.
End BlacklistedUsernameAddForm.

(** ** A concrete deployment, to run the forms on

    Translation is the identity, credentials are stored in the clear, one
    user name is blocked, the photo limit is 4MB and the platform is
    POSIX. *)

Definition demo_profile : UserProfile :=
  {| username := u "basta";
     password := "s3cret";
     is_developer := false;
     picture_type := "";
     picture_dir := "/userpics/0/1";
     picture_path := "/userpics/0/1/1001.png" |}.

Definition demo_developer : UserProfile :=
  {| username := u "dev";
     password := "hunter2";
     is_developer := true;
     picture_type := "";
     picture_dir := "/userpics/0/2";
     picture_path := "/userpics/0/2/2002.png" |}.

Definition demo_request (p : UserProfile) : Request :=
  {| user := {| user_id := 1001; profile := p |} |}.

Definition demo : Collaborators :=
  {| ugettext := fun s => s;
     check_password := fun p raw => bool_decide (raw = VStr (u (password p)));
     create_password := fun raw =>
       match raw with
       | VStr s => string_of_list_ascii (map ascii_of_N s)
       | _ => ""
       end;
     blocked := fun name => bool_decide (name = VStr (u "admin"));
     RECAPTCHA_PRIVATE_KEY := VStr (u "6Lc-private");
     MAX_PHOTO_UPLOAD_SIZE := 4 * 1024 * 1024;
     os_name := posix;
     User_unicode := fun usr => format_d (user_id usr);
     UserProfile_unicode := fun p =>
       string_of_list_ascii (map ascii_of_N (username p));
     fields_for_model :=
       {[ "username" := ModelField "username";
          "password" := ModelField "password";
          "email" := ModelField "email" ]};
     ModelForm_save := fun _ => demo_profile |}.

(** The same deployment without a CAPTCHA key. *)
Definition demo_no_captcha : Collaborators :=
  {| ugettext := @ugettext demo;
     check_password := @check_password demo;
     create_password := @create_password demo;
     blocked := @blocked demo;
     RECAPTCHA_PRIVATE_KEY := VStr [];
     MAX_PHOTO_UPLOAD_SIZE := @MAX_PHOTO_UPLOAD_SIZE demo;
     os_name := nt;
     User_unicode := @User_unicode demo;
     UserProfile_unicode := @UserProfile_unicode demo;
     fields_for_model := @fields_for_model demo;
     ModelForm_save := @ModelForm_save demo |}.

Definition demo_photo : UploadedFile :=
  {| name := "me.jpg"; content_type := "image/jpeg"; size := 6;
     chunks := ["abc"; "def"] |}.

Definition empty_world : World :=
  {| log := []; dirs := ∅; files := ∅; opened := ∅; queue := [];
     saved := []; trace := [] |}.

(** ** Vocabulary of the properties *)

(** The effects that may follow the enqueue: log records and the
    database write.  None of them reads the task queue or a job. *)
Definition after_enqueue (e : Event) : bool :=
  match e with
  | EvLog _ _ | EvSave _ => true
  | _ => false
  end.

Definition is_enqueue (e : Event) : bool :=
  match e with
  | EvDelay _ _ => true
  | _ => false
  end.

(** No character of the text is a line break. *)
Definition no_break (s : list N) : Prop :=
  List.Forall (fun c => Py_UNICODE_ISLINEBREAK c = false) s.

(** The text is empty or starts with a character that is not a space. *)
Definition no_space_first (s : list N) : Prop :=
  match s with
  | [] => True
  | c :: _ => Py_UNICODE_ISSPACE c = false
  end.

(** The three separators [os.linesep] can be. *)
Definition is_linesep (sep : list N) : Prop :=
  sep = [LF] \/ sep = [CR; LF] \/ sep = [CR].

(** The line has something other than spaces: [s.strip()] is true. *)
Definition non_blank (line : list N) : bool :=
  negb (bool_decide (strip line = [])).

(** The lines the normalisation keeps. *)
Definition kept_lines (text : list N) : list (list N) :=
  map strip (List.filter non_blank (splitlines text)).

(** The world after the given records went to the log, in order. *)
Definition logged (records : list (Level * string)) (w : World) : World :=
  {| log := log w ++ records; dirs := dirs w; files := files w;
     opened := opened w; queue := queue w; saved := saved w;
     trace := trace w ++ map (fun r => EvLog r.1 r.2) records |}.

(** ** Sample submissions *)

(** A profile edit with a new password and a wrong old password. *)
Definition edit_wrong_old_password : gmap string value :=
  {[ "oldpassword" := VStr (u "guess");
     "password" := VStr (u "n3w");
     "password2" := VStr (u "n3w") ]}.

(** A profile edit that uploads a JPEG and sets a new password. *)
Definition edit_with_photo : gmap string value :=
  {[ "photo" := VFile demo_photo; "password" := VStr (u "n3w") ]}.

(** * Properties *)

(** ** Runs on the sample deployment *)

Example splitlines_mixed_breaks :
  splitlines [97; 13; 13; 10; 10; 98; 10]%N = [[97]; []; []; [98]]%N.
Proof. reflexivity. Qed.

Example splitlines_empty : splitlines [] = [].
Proof. reflexivity. Qed.

Example splitlines_unicode_separator :
  splitlines [97; 0x2028; 98]%N = [[97]; [98]]%N.
Proof. reflexivity. Qed.

Example strip_both_ends : strip (u "  a b  ") = u "a b".
Proof. reflexivity. Qed.

Example strip_blank : strip [32; 9; 0xA0; 0x3000]%N = [].
Proof. reflexivity. Qed.

Example normalize_posix :
  @BlacklistedUsernameAddForm.normalize demo
    [32; 97; 32; 10; 10; 32; 9; 13; 10; 98; 32; 99; 10]%N
  = [97; 10; 98; 32; 99]%N.
Proof. reflexivity. Qed.

Example normalize_nt :
  @BlacklistedUsernameAddForm.normalize demo_no_captcha
    [32; 97; 32; 10; 10; 32; 9; 13; 10; 98; 32; 99; 10]%N
  = [97; 13; 10; 98; 32; 99]%N.
Proof. reflexivity. Qed.

Example blacklist_clean_blank_text :
  @BlacklistedUsernameAddForm.clean demo {[ "usernames" := VStr (u "   ") ]} ∅
  = Return ({[ "usernames" := VStr [] ]},
            {[ "usernames" := ["Please enter at least one username to blacklist."] ]}).
Proof. vm_compute. reflexivity. Qed.

Example delete_wrong_password :
  @UserDeleteForm.clean_password demo (Some (demo_request demo_profile))
    {[ "password" := VStr (u "guess"); "confirm" := VBool true ]}
  = Raise (ValidationError "Wrong password entered!").
Proof. vm_compute. reflexivity. Qed.

Example delete_without_request :
  @UserDeleteForm.clean_password demo None {[ "password" := VStr (u "s3cret") ]}
  = Raise (AttributeError "user").
Proof. reflexivity. Qed.

Example register_passwords_differ :
  @UserRegisterForm.clean demo
    {[ "password" := VStr (u "one"); "password2" := VStr (u "two") ]} ∅
  = Return ({[ "password" := VStr (u "one") ]},
            {[ "password2" := ["The passwords did not match."] ]}).
Proof. vm_compute. reflexivity. Qed.

Example register_confirmation_missing :
  @UserRegisterForm.clean demo {[ "password" := VStr [] ]} ∅
  = Return ({[ "password" := VStr [] ]},
            {[ "password2" := ["The passwords did not match."] ]}).
Proof. vm_compute. reflexivity. Qed.

Example register_blocked_name :
  @UserRegisterForm.clean_username demo {[ "username" := VStr (u "admin") ]}
  = Raise (ValidationError "This username is invalid.").
Proof. vm_compute. reflexivity. Qed.

Example edit_photo_wrong_type :
  @UserEditForm.clean_photo demo
    {[ "photo" := VFile {| name := "me.gif"; content_type := "image/gif";
                           size := 10; chunks := [] |} ]}
  = Raise (ValidationError "Images must be either PNG or JPG.").
Proof. vm_compute. reflexivity. Qed.

Example edit_photo_too_large :
  @UserEditForm.clean_photo demo
    {[ "photo" := VFile {| name := "me.png"; content_type := "image/png";
                           size := 4 * 1024 * 1024 + 1; chunks := [] |} ]}
  = Raise (ValidationError "Please use images smaller than 3MB.").
Proof. vm_compute. reflexivity. Qed.

Example edit_photo_at_the_limit :
  @UserEditForm.clean_photo demo
    {[ "photo" := VFile {| name := "me.png"; content_type := "image/png";
                           size := 4 * 1024 * 1024; chunks := [] |} ]}
  = Return (VFile {| name := "me.png"; content_type := "image/png";
                     size := 4 * 1024 * 1024; chunks := [] |}).
Proof. vm_compute. reflexivity. Qed.

Example edit_no_photo :
  @UserEditForm.clean_photo demo {[ "photo" := VNone ]} = Return VNone.
Proof. vm_compute. reflexivity. Qed.

Example edit_old_password_missing :
  @UserEditForm.clean demo (Some (demo_request demo_profile))
    {[ "password" := VStr (u "n3w"); "password2" := VStr (u "n3w") ]} ∅
  = Raise (KeyError "oldpassword").
Proof. vm_compute. reflexivity. Qed.

Example text_mode_windows :
  @text_mode demo_no_captcha (String "a" (String "010" "b"))
  = String "a" (String "013" (String "010" "b")).
Proof. reflexivity. Qed.

Example text_mode_posix_verbatim :
  @text_mode demo (String "a" (String "010" "b")) = String "a" (String "010" "b").
Proof. reflexivity. Qed.

Example edit_save_file_on_windows :
  files (snd (@UserEditForm.save demo_no_captcha
                {[ "photo" := VFile {| name := "me.png";
                                       content_type := "image/png"; size := 3;
                                       chunks := [String "a" (String "010" "b")] |};
                   "password" := VStr [] ]} empty_world))
    !! "/userpics/0/1/1001.png__unconverted"
  = Some (String "a" (String "013" (String "010" "b"))).
Proof. vm_compute. reflexivity. Qed.

Example edit_save_trace :
  trace (snd (@UserEditForm.save demo edit_with_photo empty_world))
  = [EvExists "/userpics/0/1"; EvMakedirs "/userpics/0/1";
     EvOpen "/userpics/0/1/1001.png__unconverted" "w";
     EvWrite "/userpics/0/1/1001.png__unconverted" "abc";
     EvWrite "/userpics/0/1/1001.png__unconverted" "def";
     EvClose "/userpics/0/1/1001.png__unconverted";
     EvDelay "/userpics/0/1/1001.png__unconverted" "/userpics/0/1/1001.png";
     EvLog INFO "User (basta) changed their password";
     EvLog DEBUG "User (basta) updated their profile";
     EvSave (set_password (H := demo)
               (UserEditForm.set_picture_type demo_profile "image/png")
               (VStr (u "n3w")))].
Proof. vm_compute. reflexivity. Qed.

(** ** Dictionary accesses *)

Lemma getitem_insert {V} (d : gmap string V) k v :
  getitem (<[k := v]> d) k = Return v.
Proof. unfold getitem. by rewrite lookup_insert_eq. Qed.

Lemma getitem_Some {V} (d : gmap string V) k v :
  d !! k = Some v -> getitem d k = Return v.
Proof. unfold getitem. by intros ->. Qed.

Lemma delitem_Some {V} (d : gmap string V) k v :
  d !! k = Some v -> delitem d k = Return (delete k d).
Proof. unfold delitem. by intros ->. Qed.

Lemma truthy_dict_get (d : gmap string value) k :
  truthy (dict_get d k) = true -> is_Some (d !! k).
Proof.
  unfold dict_get. destruct (d !! k); [eauto | discriminate].
Qed.

Lemma py_ne_spec (a b : value) : py_ne a b = true <-> a <> b.
Proof.
  unfold py_ne. case_bool_decide; simpl; split; intros; congruence.
Qed.

(** ** UserRegisterForm *)
Section UserRegisterForm_spec.
Context `{Collaborators}.

(** The confirmation check never raises; it touches nothing but the
    'password2' entries of the two dictionaries. *)
Lemma register_clean_returns (data : gmap string value)
    (errs : gmap string (list string)) :
  exists data' errs',
    UserRegisterForm.clean data errs = Return (data', errs')
    /\ (forall k, k <> "password2" -> data' !! k = data !! k)
    /\ (forall k, k <> "password2" -> errs' !! k = errs !! k).
Proof.
  unfold UserRegisterForm.clean.
  destruct (py_ne _ _); [| by eauto].
  destruct (truthy (dict_get data "password2")) eqn:Hp2.
  - destruct (truthy_dict_get _ _ Hp2) as [v Hv].
    rewrite (delitem_Some _ _ _ Hv). simpl.
    eexists _, _. split; [reflexivity |].
    split; intros k Hk; simplify_map_eq; done.
  - eexists _, _. split; [reflexivity |].
    split; intros k Hk; simplify_map_eq; done.
Qed.

(** C4: in [UserRegisterForm.clean], when 'password' and 'password2'
    (as [data.get] reads them) differ, the error list of 'password2'
    becomes the one message "The passwords did not match."; when they
    are equal, the check leaves errors and data as they were. *)
Theorem register_clean_password_confirmation (data : gmap string value)
    (errs : gmap string (list string)) :
  exists data' errs',
    UserRegisterForm.clean data errs = Return (data', errs')
    /\ (dict_get data "password" <> dict_get data "password2" ->
        errs' !! "password2" = Some [ugettext "The passwords did not match."]
        /\ errs' = <["password2" := [ugettext "The passwords did not match."]]> errs)
    /\ (dict_get data "password" = dict_get data "password2" ->
        errs' = errs /\ data' = data).
Proof.
  unfold UserRegisterForm.clean.
  destruct (py_ne _ _) eqn:Hne.
  - apply py_ne_spec in Hne.
    destruct (truthy (dict_get data "password2")) eqn:Hp2.
    + destruct (truthy_dict_get _ _ Hp2) as [v Hv].
      rewrite (delitem_Some _ _ _ Hv). simpl.
      eexists _, _. split; [reflexivity |].
      split; [intros _; by rewrite lookup_insert_eq | intros; contradiction].
    + eexists _, _. split; [reflexivity |].
      split; [intros _; by rewrite lookup_insert_eq | intros; contradiction].
  - assert (dict_get data "password" = dict_get data "password2") as Heq.
    { destruct (decide (dict_get data "password" = dict_get data "password2"))
        as [|Hd]; [done |].
      apply py_ne_spec in Hd. congruence. }
    eexists _, _. split; [reflexivity |].
    split; [intros; contradiction | done].
Qed.

(** C5: [clean_username] asks [BlacklistedUsername.blocked] about the
    submitted name; a blocked name raises the validation error "This
    username is invalid.", any other name is returned as it is. *)
Theorem register_clean_username_blacklist (data : gmap string value)
    (name : value) :
  UserRegisterForm.clean_username (<["username" := name]> data)
  = if blocked name
    then Raise (ValidationError (ugettext "This username is invalid."))
    else Return name.
Proof.
  unfold UserRegisterForm.clean_username.
  rewrite getitem_insert. reflexivity.
Qed.

End UserRegisterForm_spec.

(** ** UserDeleteForm *)
Section UserDeleteForm_spec.
Context `{Collaborators}.

(** The password check of the deletion form, on every cleaned-data
    dictionary that holds the submitted password. *)
Lemma delete_clean_password_eq (r : Request) (data : gmap string value)
    (pw : value) :
  UserDeleteForm.clean_password (Some r) (<["password" := pw]> data)
  = if check_password (get_profile (user r)) pw
    then Return VNone
    else Raise (ValidationError (ugettext "Wrong password entered!")).
Proof.
  unfold UserDeleteForm.clean_password. simpl.
  rewrite getitem_insert. simpl.
  by destruct (check_password _ _).
Qed.

(** C3: when the profile of the requesting account has the developer
    flag, [UserDeleteForm.clean] appends one WARNING record with the
    tampering message to the log and then raises the validation error
    with the empty message.  The method reads none of the submitted
    fields, and nothing else in the world changes. *)
Theorem delete_clean_developer_tampering (r : Request) (w : World) :
  is_developer (get_profile (user r)) = true ->
  let msg := "[Tampering] Attempt to delete developer account ("
               ++ User_unicode (user r) ++ ")" in
  exists w',
    UserDeleteForm.clean (Some r) w = (Raise (ValidationError ""), w')
    /\ log w' = (log w ++ [(WARNING, msg)])%list
    /\ trace w' = (trace w ++ [EvLog WARNING msg])%list
    /\ files w' = files w /\ dirs w' = dirs w
    /\ queue w' = queue w /\ saved w' = saved w.
Proof.
  intros Hdev msg.
  unfold UserDeleteForm.clean, bind, lift, throw, log_msg. simpl.
  rewrite Hdev. simpl.
  eexists. split; [reflexivity |]. simpl. repeat split; reflexivity.
Qed.

(** An account without the flag passes the tamper check silently. *)
Lemma delete_clean_other_accounts (r : Request) (w : World) :
  is_developer (get_profile (user r)) = false ->
  UserDeleteForm.clean (Some r) w = (Return VNone, w).
Proof.
  intros Hdev. unfold UserDeleteForm.clean, bind, lift, ret. simpl.
  by rewrite Hdev.
Qed.

End UserDeleteForm_spec.

Lemma delete_clean_developer_tampering_witness :
  exists w',
    @UserDeleteForm.clean demo (Some (demo_request demo_developer)) empty_world
    = (Raise (ValidationError ""), w')
    /\ log w' = [(WARNING, "[Tampering] Attempt to delete developer account (1001)")].
Proof.
  destruct (@delete_clean_developer_tampering demo
              (demo_request demo_developer) empty_world eq_refl)
    as (w' & Hrun & Hlog & _).
  exists w'. split; [exact Hrun | exact Hlog].
Defined.

(** ** UserEditForm: validation *)
Section UserEditForm_clean_spec.
Context `{Collaborators}.

(** C2: for an upload that is true in an [if] (its name is not empty),
    [clean_photo] returns the upload exactly when its declared content
    type is 'image/png' or 'image/jpeg' and its size is at most
    settings.MAX_PHOTO_UPLOAD_SIZE.  A wrong type raises "Images must be
    either PNG or JPG."; a right type with too large a size raises
    "Please use images smaller than <n>MB.". *)
Theorem edit_clean_photo_accepts_iff (data : gmap string value)
    (f : UploadedFile) :
  data !! "photo" = Some (VFile f) ->
  truthy (VFile f) = true ->
  let type_ok := content_type f = "image/png" \/ content_type f = "image/jpeg" in
  (UserEditForm.clean_photo data = Return (VFile f)
   <-> type_ok /\ (size f <= MAX_PHOTO_UPLOAD_SIZE)%Z)
  /\ (~ type_ok ->
      UserEditForm.clean_photo data
      = Raise (ValidationError (ugettext "Images must be either PNG or JPG.")))
  /\ (type_ok -> (size f > MAX_PHOTO_UPLOAD_SIZE)%Z ->
      UserEditForm.clean_photo data
      = Raise (ValidationError
                 (ugettext
                    ("Please use images smaller than "
                       ++ format_d (MAX_PHOTO_UPLOAD_SIZE / 1024 / 1024 - 1)%Z
                       ++ "MB.")))).
Proof.
  intros Hphoto Htrue type_ok.
  unfold UserEditForm.clean_photo.
  rewrite (getitem_Some _ _ _ Hphoto). simpl. simpl in Htrue.
  rewrite Htrue. simpl.
  assert (bool_decide (content_type f = "image/png")
          || bool_decide (content_type f = "image/jpeg") = true <-> type_ok)
    as Hty.
  { rewrite orb_true_iff, !bool_decide_eq_true. reflexivity. }
  destruct (bool_decide (content_type f = "image/png")
            || bool_decide (content_type f = "image/jpeg")) eqn:Hb; simpl.
  - assert type_ok as Hok by (by apply Hty).
    destruct (size f >? MAX_PHOTO_UPLOAD_SIZE)%Z eqn:Hsz.
    + apply Z.gtb_lt in Hsz.
      split; [split; [discriminate | intros [_ ?]; lia] |].
      split; [intros Hn; contradiction | reflexivity].
    + rewrite Z.gtb_ltb in Hsz. apply Z.ltb_ge in Hsz.
      split; [split; [intros _; split; [exact Hok | exact Hsz] | reflexivity] |].
      split; [intros Hn; contradiction | intros _ ?; lia].
  - assert (~ type_ok) as Hno.
    { intros Hok. apply Hty in Hok. discriminate. }
    split; [split; [discriminate | intros [? _]; contradiction] |].
    split; [reflexivity | intros ?; contradiction].
Qed.

End UserEditForm_clean_spec.

Lemma edit_clean_photo_accepts_iff_witness :
  @UserEditForm.clean_photo demo {[ "photo" := VFile demo_photo ]}
  = Return (VFile demo_photo).
Proof.
  assert (({[ "photo" := VFile demo_photo ]} : gmap string value) !! "photo"
          = Some (VFile demo_photo)) as Hphoto by (vm_compute; reflexivity).
  destruct (@edit_clean_photo_accepts_iff demo _ demo_photo Hphoto eq_refl)
    as [[_ Hok] _].
  apply Hok. split; [right; reflexivity | simpl; lia].
Defined.

(** ** Password verification *)
Section password_verification.
Context `{Collaborators}.

(** With a new password or a confirmation in the cleaned data,
    [UserEditForm.clean] checks 'oldpassword' and hands over to the
    confirmation check of the base class. *)
Lemma edit_clean_eq (r : Request) (data : gmap string value)
    (errs : gmap string (list string)) (old : value) :
  truthy (dict_get data "password") || truthy (dict_get data "password2") = true ->
  data !! "oldpassword" = Some old ->
  UserEditForm.clean (Some r) data errs
  = if check_password (get_profile (user r)) old
    then UserRegisterForm.clean data errs
    else UserRegisterForm.clean (delete "oldpassword" data)
           (<["oldpassword" := [ugettext "Wrong password entered!"]]> errs).
Proof.
  intros Hnew Hold. unfold UserEditForm.clean. simpl.
  rewrite Hnew, (getitem_Some _ _ _ Hold). simpl.
  destruct (check_password _ _); simpl; [reflexivity |].
  by rewrite (delitem_Some _ _ _ Hold).
Qed.

(** C1, as the code has it: the deletion form raises the validation
    error "Wrong password entered!" exactly when the submitted password
    does not match the credential of the requesting account.  The edit
    form, when a new password or a confirmation is supplied and
    'oldpassword' is in the cleaned data, does not raise on a mismatch:
    it records that message as the error list of 'oldpassword', removes
    'oldpassword' from the cleaned data, runs the confirmation check of
    the base class on what is left and returns what that check returns;
    on a match it only runs the confirmation check. *)
Theorem password_verification (r : Request)
    (data_delete data_edit : gmap string value)
    (errs : gmap string (list string)) (pw old : value) :
  data_delete !! "password" = Some pw ->
  truthy (dict_get data_edit "password")
    || truthy (dict_get data_edit "password2") = true ->
  data_edit !! "oldpassword" = Some old ->
  let amouser := get_profile (user r) in
  let msg := ugettext "Wrong password entered!" in
  UserDeleteForm.clean_password (Some r) data_delete
  = (if check_password amouser pw
     then Return VNone
     else Raise (ValidationError msg))
  /\ (if check_password amouser old
      then UserEditForm.clean (Some r) data_edit errs
           = UserRegisterForm.clean data_edit errs
      else UserEditForm.clean (Some r) data_edit errs
           = UserRegisterForm.clean (delete "oldpassword" data_edit)
               (<["oldpassword" := [msg]]> errs)
           /\ exists data' errs',
               UserEditForm.clean (Some r) data_edit errs = Return (data', errs')
               /\ errs' !! "oldpassword" = Some [msg]
               /\ data' !! "oldpassword" = None).
Proof.
  intros Hpw Hnew Hold amouser msg. split.
  - rewrite <- (insert_id _ _ _ Hpw). apply delete_clean_password_eq.
  - rewrite (edit_clean_eq r data_edit errs old Hnew Hold).
    fold amouser. destruct (check_password amouser old); [reflexivity |].
    split; [reflexivity |].
    destruct (register_clean_returns (delete "oldpassword" data_edit)
                (<["oldpassword" := [ugettext "Wrong password entered!"]]> errs))
      as (data' & errs' & -> & Hdata & Herrs).
    exists data', errs'. split; [reflexivity |]. split.
    + rewrite Herrs by done. apply lookup_insert_eq.
    + rewrite Hdata by done. apply lookup_delete_eq.
Qed.

End password_verification.


Lemma password_verification_witness :
  @UserDeleteForm.clean_password demo (Some (demo_request demo_profile))
    {[ "password" := VStr (u "s3cret") ]} = Return VNone
  /\ @UserEditForm.clean demo (Some (demo_request demo_profile))
       edit_wrong_old_password ∅
     = @UserRegisterForm.clean demo (delete "oldpassword" edit_wrong_old_password)
         (<["oldpassword" := ["Wrong password entered!"]]> ∅)
  /\ exists data' errs',
      @UserEditForm.clean demo (Some (demo_request demo_profile))
        edit_wrong_old_password ∅ = Return (data', errs')
      /\ errs' !! "oldpassword" = Some ["Wrong password entered!"]
      /\ data' !! "oldpassword" = None.
Proof.
  assert (({[ "password" := VStr (u "s3cret") ]} : gmap string value) !! "password"
          = Some (VStr (u "s3cret"))) as Hpw by (vm_compute; reflexivity).
  assert (truthy (dict_get edit_wrong_old_password "password")
          || truthy (dict_get edit_wrong_old_password "password2") = true)
    as Hnew by (vm_compute; reflexivity).
  assert (edit_wrong_old_password !! "oldpassword" = Some (VStr (u "guess")))
    as Hold by (vm_compute; reflexivity).
  exact (@password_verification demo (demo_request demo_profile) _ _ ∅ _ _
           Hpw Hnew Hold).
Defined.

(** C1 as stated fails on the edit form: with a new password supplied and
    an old password that does not match, [UserEditForm.clean] raises
    nothing.  It returns, with the error recorded under 'oldpassword'. *)
Lemma edit_clean_mismatch_is_not_raised :
  @check_password demo (get_profile (user (demo_request demo_profile)))
    (VStr (u "guess")) = false
  /\ @UserEditForm.clean demo (Some (demo_request demo_profile))
       edit_wrong_old_password ∅
     = Return ({[ "password" := VStr (u "n3w"); "password2" := VStr (u "n3w") ]},
               {[ "oldpassword" := ["Wrong password entered!"] ]})
  /\ ~ exists e, @UserEditForm.clean demo (Some (demo_request demo_profile))
                   edit_wrong_old_password ∅ = Raise e.
Proof.
  assert (@UserEditForm.clean demo (Some (demo_request demo_profile))
            edit_wrong_old_password ∅
          = Return ({[ "password" := VStr (u "n3w"); "password2" := VStr (u "n3w") ]},
                    {[ "oldpassword" := ["Wrong password entered!"] ]})) as Hrun
    by (vm_compute; reflexivity).
  split; [vm_compute; reflexivity |]. split; [exact Hrun |].
  intros [e He]. rewrite Hrun in He. discriminate.
Qed.

(** ** The CAPTCHA field *)
Section captcha_spec.
Context `{Collaborators}.

Lemma register_base_fields_recaptcha :
  UserRegisterForm.base_fields !! "recaptcha" = Some ReCaptchaField.
Proof.
  unfold UserRegisterForm.base_fields.
  apply lookup_union_Some_l. vm_compute. reflexivity.
Qed.

Lemma edit_base_fields_recaptcha :
  UserEditForm.base_fields !! "recaptcha" = Some ReCaptchaField.
Proof.
  unfold UserEditForm.base_fields.
  apply lookup_union_Some_l. vm_compute. reflexivity.
Qed.

(** C7: a constructed registration form has the 'recaptcha' field
    exactly when settings.RECAPTCHA_PRIVATE_KEY is true in an [if], and
    its other fields are those of the class; a constructed edit form
    never has the field, whatever the setting. *)
Theorem captcha_field_presence :
  (exists fields,
      UserRegisterForm.__init__ UserRegisterForm.base_fields = Return fields
      /\ (is_Some (fields !! "recaptcha") <-> truthy RECAPTCHA_PRIVATE_KEY = true)
      /\ forall k, k <> "recaptcha" ->
                   fields !! k = UserRegisterForm.base_fields !! k)
  /\ (exists fields,
         UserEditForm.__init__ UserEditForm.base_fields = Return fields
         /\ fields !! "recaptcha" = None
         /\ forall k, k <> "recaptcha" ->
                      fields !! k = UserEditForm.base_fields !! k).
Proof.
  split.
  - unfold UserRegisterForm.__init__.
    destruct (truthy RECAPTCHA_PRIVATE_KEY); simpl.
    + eexists. split; [reflexivity |]. split; [| done].
      rewrite register_base_fields_recaptcha. split; [done | eauto].
    + rewrite (delitem_Some _ _ _ register_base_fields_recaptcha).
      eexists. split; [reflexivity |]. split.
      * rewrite lookup_delete_eq. split; [intros [? ?] |]; discriminate.
      * intros k Hk. by rewrite lookup_delete_ne.
  - unfold UserEditForm.__init__, UserRegisterForm.__init__.
    destruct (truthy RECAPTCHA_PRIVATE_KEY); simpl.
    + rewrite edit_base_fields_recaptcha.
      rewrite (delitem_Some _ _ _ edit_base_fields_recaptcha).
      eexists. split; [reflexivity |]. split.
      * apply lookup_delete_eq.
      * intros k Hk. by rewrite lookup_delete_ne.
    + rewrite (delitem_Some _ _ _ edit_base_fields_recaptcha). simpl.
      rewrite lookup_delete_eq.
      eexists. split; [reflexivity |]. split.
      * apply lookup_delete_eq.
      * intros k Hk. by rewrite lookup_delete_ne.
Qed.

End captcha_spec.

Example register_form_with_key :
  is_Some (default ∅ (match @UserRegisterForm.__init__ demo
                              (@UserRegisterForm.base_fields demo) with
                      | Return fields => Some fields
                      | Raise _ => None
                      end) !! "recaptcha").
Proof. vm_compute. eauto. Qed.

Example register_form_without_key :
  @UserRegisterForm.__init__ demo_no_captcha
    (@UserRegisterForm.base_fields demo_no_captcha)
  = Return {[ "username" := ModelField "username";
              "email" := ModelField "email";
              "password" := CharField 255 true;
              "password2" := CharField 255 true ]}.
Proof. vm_compute. reflexivity. Qed.

(** ** UserEditForm.save *)

Lemma string_app_assoc (a b c : string) : (a ++ b) ++ c = a ++ (b ++ c).
Proof.
  induction a as [| x a IH]; [reflexivity | exact (f_equal (String x) IH)].
Qed.

Lemma string_app_nil_r (a : string) : a ++ "" = a.
Proof.
  induction a as [| x a IH]; [reflexivity | exact (f_equal (String x) IH)].
Qed.

Section UserEditForm_save_spec.
Context `{Collaborators}.

(** On POSIX a text-mode file stores what is written, byte for byte. *)
Lemma text_mode_posix (s : string) : os_name = posix -> text_mode s = s.
Proof.
  intros Hos. induction s as [| c rest IH]; [reflexivity |].
  cbn [text_mode]. rewrite Hos, IH.
  case_bool_decide as Hc; [by rewrite Hc | reflexivity].
Qed.

Lemma map_text_mode_posix (cs : list string) :
  os_name = posix -> map text_mode cs = cs.
Proof.
  intros Hos. induction cs as [| c rest IH]; [reflexivity |].
  simpl. by rewrite (text_mode_posix c Hos), IH.
Qed.

(** The write loop: every chunk is appended to the file, in order, and
    nothing else happens. *)
Lemma write_chunks_run (fh : string) (cs : list string) :
  forall w, exists w',
    UserEditForm.write_chunks fh cs w = (Return tt, w')
    /\ trace w' = (trace w ++ map (EvWrite fh) cs)%list
    /\ log w' = log w /\ dirs w' = dirs w /\ opened w' = opened w
    /\ queue w' = queue w /\ saved w' = saved w
    /\ forall c, files w !! fh = Some c ->
                 files w' !! fh = Some (c ++ String.concat "" (map text_mode cs)).
Proof.
  induction cs as [| chunk rest IH]; intros w; simpl.
  - exists w. unfold ret. rewrite app_nil_r.
    repeat split; try reflexivity.
    intros c Hc. by rewrite string_app_nil_r.
  - unfold bind, fh_write.
    match goal with
    | |- context [UserEditForm.write_chunks fh rest ?w1] =>
        destruct (IH w1) as (w' & -> & Htr & Hlog & Hdirs & Hop & Hq & Hs & Hf)
    end.
    exists w'. simpl in *. split; [reflexivity |].
    rewrite Htr, Hlog, Hdirs, Hop, Hq, Hs, <- app_assoc.
    repeat split; try reflexivity.
    intros c Hc. rewrite Hc in Hf. simpl in Hf.
    rewrite (Hf (c ++ text_mode chunk)) by apply lookup_insert_eq.
    f_equal. rewrite string_app_assoc. f_equal.
    destruct rest; simpl; [by rewrite string_app_nil_r | reflexivity].
Qed.

(** What [save] does when the cleaned data holds a photo that is true in
    an [if] and a 'password' entry. *)
Lemma edit_save_photo_run (data : gmap string value) (f : UploadedFile)
    (pw : value) (w : World) :
  data !! "photo" = Some (VFile f) ->
  truthy (VFile f) = true ->
  data !! "password" = Some pw ->
  let p1 := UserEditForm.set_picture_type (ModelForm_save data) "image/png" in
  let p2 := if truthy pw then set_password p1 pw else p1 in
  let tmp := picture_path p1 ++ "__unconverted" in
  exists (there : bool) (w' : World),
    UserEditForm.save data w = (Return p2, w')
    /\ trace w' =
       (trace w
          ++ [EvExists (picture_dir p1)]
          ++ (if there then [] else [EvMakedirs (picture_dir p1)])
          ++ [EvOpen tmp "w"]
          ++ map (EvWrite tmp) (chunks f)
          ++ [EvClose tmp; EvDelay tmp (picture_path p1)]
          ++ (if truthy pw
              then [EvLog INFO ("User (" ++ UserProfile_unicode p2
                                  ++ ") changed their password")]
              else [])
          ++ [EvLog DEBUG ("User (" ++ UserProfile_unicode p2
                             ++ ") updated their profile");
              EvSave p2])%list
    /\ files w' !! tmp = Some (String.concat "" (map text_mode (chunks f)))
    /\ (tmp ∉ opened w')
    /\ queue w' = (queue w ++ [(tmp, picture_path p1)])%list
    /\ saved w' = (saved w ++ [p2])%list.
Proof.
  intros Hphoto Htrue Hpw p1 p2 tmp.
  unfold UserEditForm.save.
  unfold bind at 1. unfold lift at 1. rewrite (getitem_Some _ _ _ Hphoto).
  rewrite Htrue.
  fold p1. fold tmp.
  exists (bool_decide (picture_dir p1 ∈ dirs w)
          || bool_decide (is_Some (files w !! picture_dir p1))).
  unfold bind, lift, ret, os_path_exists, os_makedirs, open_w, fh_close,
    resize_photo_delay, log_msg, model_save.
  rewrite (getitem_Some _ _ _ Hpw).
  destruct (bool_decide (picture_dir p1 ∈ dirs w)
            || bool_decide (is_Some (files w !! picture_dir p1))); simpl;
    match goal with
    | |- context [UserEditForm.write_chunks tmp (chunks f) ?w1] =>
        destruct (write_chunks_run tmp (chunks f) w1)
          as (w2 & -> & Htr & Hlog & Hdirs & Hop & Hq & Hs & Hf)
    end; simpl in *;
    specialize (Hf "" (lookup_insert_eq _ _ _)); simpl in Hf;
    subst p2; destruct (truthy pw); simpl;
    (eexists; split; [reflexivity |]); simpl;
    rewrite Htr, Hop, Hq, Hs, Hf; simpl;
    rewrite <- ?app_assoc; simpl;
    (split; [reflexivity |]); (split; [reflexivity |]);
    (split; [apply not_elem_of_difference; right; by apply elem_of_singleton |]);
    split; reflexivity.
Qed.


(** C8: when the cleaned data holds a photo that is true in an [if],
    [save] opens <picture_path>__unconverted for writing, writes every
    chunk of the upload to it in order, closes the handle, and only then
    enqueues the resize job with arguments (that path, picture_path).
    Nothing before the write is an enqueue; what follows the enqueue is
    logging and the database write only, and the job is still in the
    queue when [save] returns.  On POSIX, where a text-mode file stores
    what is written byte for byte, the file then holds the chunks, one
    after the other. *)
Theorem edit_save_writes_then_enqueues (data : gmap string value)
    (f : UploadedFile) (pw : value) (w : World) :
  data !! "photo" = Some (VFile f) ->
  truthy (VFile f) = true ->
  data !! "password" = Some pw ->
  let dst := picture_path (ModelForm_save data) in
  let tmp := dst ++ "__unconverted" in
  exists (p' : UserProfile) (w' : World) (before after : list Event),
    UserEditForm.save data w = (Return p', w')
    /\ trace w' =
       (trace w ++ before
          ++ [EvOpen tmp "w"] ++ map (EvWrite tmp) (chunks f)
          ++ [EvClose tmp; EvDelay tmp dst] ++ after)%list
    /\ forallb (fun e => negb (is_enqueue e)) before = true
    /\ forallb after_enqueue after = true
    /\ (os_name = posix ->
        files w' !! tmp = Some (String.concat "" (chunks f)))
    /\ (tmp ∉ opened w')
    /\ queue w' = (queue w ++ [(tmp, dst)])%list.
Proof.
  intros Hphoto Htrue Hpw dst tmp.
  destruct (edit_save_photo_run data f pw w Hphoto Htrue Hpw)
    as (there & w' & Hrun & Htr & Hfile & Hclosed & Hq & _).
  set (p1 := UserEditForm.set_picture_type (ModelForm_save data) "image/png") in *.
  set (p2 := if truthy pw then set_password p1 pw else p1) in *.
  change (picture_path p1) with dst in *. fold tmp in Htr, Hfile, Hclosed, Hq.
  change (picture_dir p1) with (picture_dir (ModelForm_save data)) in *.
  exists p2, w',
    (EvExists (picture_dir (ModelForm_save data))
       :: (if there then [] else [EvMakedirs (picture_dir (ModelForm_save data))])),
    ((if truthy pw
      then [EvLog INFO ("User (" ++ UserProfile_unicode p2
                          ++ ") changed their password")]
      else [])
       ++ [EvLog DEBUG ("User (" ++ UserProfile_unicode p2
                          ++ ") updated their profile");
           EvSave p2])%list.
  split; [exact Hrun |].
  split; [| split; [| split; [| split; [| split; [exact Hclosed | exact Hq]]]]].
  4: { intros Hos. rewrite Hfile. by rewrite (map_text_mode_posix _ Hos). }
  - rewrite Htr. simpl. rewrite <- ?app_assoc. reflexivity.
  - by destruct there.
  - by destruct (truthy pw).
Qed.

(** C9: when the cleaned data holds a photo that is true in an [if], the
    profile [save] returns and writes to the database has picture_type
    'image/png', whatever content type the upload declared. *)
Theorem edit_save_picture_type_png (data : gmap string value)
    (f : UploadedFile) (pw : value) (w : World) :
  data !! "photo" = Some (VFile f) ->
  truthy (VFile f) = true ->
  data !! "password" = Some pw ->
  exists (p' : UserProfile) (w' : World),
    UserEditForm.save data w = (Return p', w')
    /\ picture_type p' = "image/png"
    /\ saved w' = (saved w ++ [p'])%list.
Proof.
  intros Hphoto Htrue Hpw.
  destruct (edit_save_photo_run data f pw w Hphoto Htrue Hpw)
    as (there & w' & Hrun & _ & _ & _ & _ & Hsaved).
  eexists _, w'. split; [exact Hrun |]. split; [| exact Hsaved].
  by destruct (truthy pw).
Qed.

End UserEditForm_save_spec.


Lemma edit_with_photo_lookups :
  edit_with_photo !! "photo" = Some (VFile demo_photo)
  /\ edit_with_photo !! "password" = Some (VStr (u "n3w")).
Proof. split; vm_compute; reflexivity. Defined.

Lemma edit_save_writes_then_enqueues_witness :
  exists (p' : UserProfile) (w' : World) (before after : list Event),
    @UserEditForm.save demo edit_with_photo empty_world = (Return p', w')
    /\ trace w' =
       (trace empty_world ++ before
          ++ [EvOpen "/userpics/0/1/1001.png__unconverted" "w"]
          ++ map (EvWrite "/userpics/0/1/1001.png__unconverted") ["abc"; "def"]
          ++ [EvClose "/userpics/0/1/1001.png__unconverted";
              EvDelay "/userpics/0/1/1001.png__unconverted"
                "/userpics/0/1/1001.png"] ++ after)%list
    /\ forallb (fun e => negb (is_enqueue e)) before = true
    /\ forallb after_enqueue after = true
    /\ (@os_name demo = posix ->
        files w' !! "/userpics/0/1/1001.png__unconverted" = Some "abcdef")
    /\ ("/userpics/0/1/1001.png__unconverted" ∉ opened w')
    /\ queue w' = [("/userpics/0/1/1001.png__unconverted", "/userpics/0/1/1001.png")].
Proof.
  exact (@edit_save_writes_then_enqueues demo edit_with_photo demo_photo
           (VStr (u "n3w")) empty_world
           (proj1 edit_with_photo_lookups) eq_refl
           (proj2 edit_with_photo_lookups)).
Defined.

Lemma edit_save_picture_type_png_witness :
  content_type demo_photo = "image/jpeg"
  /\ exists (p' : UserProfile) (w' : World),
      @UserEditForm.save demo edit_with_photo empty_world = (Return p', w')
      /\ picture_type p' = "image/png"
      /\ saved w' = [p'].
Proof.
  split; [reflexivity |].
  exact (@edit_save_picture_type_png demo edit_with_photo demo_photo
           (VStr (u "n3w")) empty_world
           (proj1 edit_with_photo_lookups) eq_refl
           (proj2 edit_with_photo_lookups)).
Defined.

(** ** Text methods: lines, stripping, joining *)

Local Open Scope list_scope.

#[local] Arguments Py_UNICODE_ISLINEBREAK : simpl never.
#[local] Arguments Py_UNICODE_ISSPACE : simpl never.


(** One step of the loop of [splitlines]. *)
Lemma splitlines_from_cons (cur : list N) (c : N) (rest : list N) :
  splitlines_from cur (c :: rest)
  = if Py_UNICODE_ISLINEBREAK c then
      rev cur ::
        match rest with
        | c' :: rest' =>
            if bool_decide (c = CR) && bool_decide (c' = LF)
            then splitlines_from [] rest'
            else splitlines_from [] rest
        | [] => splitlines_from [] rest
        end
    else splitlines_from (c :: cur) rest.
Proof. reflexivity. Qed.

Lemma splitlines_from_no_break (l : list N) :
  forall cur rest,
    no_break l ->
    splitlines_from cur (l ++ rest) = splitlines_from (rev l ++ cur) rest.
Proof.
  induction l as [| c l IH]; intros cur rest Hl; [reflexivity |].
  inversion Hl as [| ? ? Hc Hl']; subst. simpl.
  rewrite Hc, IH by exact Hl'. by rewrite <- app_assoc.
Qed.

Lemma splitlines_from_lines_no_break (n : nat) :
  forall s cur,
    length s <= n -> no_break cur ->
    Forall no_break (splitlines_from cur s).
Proof.
  induction n as [| n IH]; intros s cur Hlen Hcur.
  - destruct s; [| simpl in Hlen; lia]. simpl.
    destruct cur; [constructor |].
    constructor; [| constructor]. by apply Forall_rev.
  - destruct s as [| c rest]; simpl.
    + destruct cur; [constructor |].
      constructor; [| constructor]. by apply Forall_rev.
    + simpl in Hlen.
      destruct (Py_UNICODE_ISLINEBREAK c) eqn:Hc.
      * constructor; [by apply Forall_rev |].
        destruct rest as [| c' rest']; [constructor |].
        simpl in Hlen.
        destruct (bool_decide (c = CR) && bool_decide (c' = LF)).
        -- apply IH; [lia | constructor].
        -- apply IH; [simpl; lia | constructor].
      * apply IH; [lia |]. by constructor.
Qed.

Lemma splitlines_no_break (s : list N) : Forall no_break (splitlines s).
Proof.
  apply (splitlines_from_lines_no_break (length s)); [lia | constructor].
Qed.

(** [lstrip] drops a prefix of spaces. *)
Lemma lstrip_suffix (s : list N) :
  exists pre, s = pre ++ lstrip s /\ Forall (fun c => Py_UNICODE_ISSPACE c = true) pre.
Proof.
  induction s as [| c s (pre & Hs & Hpre)]; [by exists [] |]. simpl.
  destruct (Py_UNICODE_ISSPACE c) eqn:Hc.
  - exists (c :: pre). split; [simpl; congruence | by constructor].
  - by exists [].
Qed.

Lemma lstrip_no_space_first (s : list N) : no_space_first (lstrip s).
Proof.
  induction s as [| c s IH]; [exact I |]. simpl.
  destruct (Py_UNICODE_ISSPACE c) eqn:Hc; [exact IH | exact Hc].
Qed.

Lemma lstrip_fixed (s : list N) : no_space_first s -> lstrip s = s.
Proof.
  destruct s as [| c s]; [reflexivity |]. simpl. by intros ->.
Qed.

Lemma rstrip_prefix (s : list N) : exists post, s = rstrip s ++ post.
Proof.
  unfold rstrip. destruct (lstrip_suffix (rev s)) as (pre & Hs & _).
  exists (rev pre). rewrite <- rev_app_distr, <- Hs. by rewrite rev_involutive.
Qed.

Lemma rstrip_no_space_first (s : list N) :
  no_space_first s -> no_space_first (rstrip s).
Proof.
  intros Hs. destruct (rstrip_prefix s) as (post & Heq).
  destruct (rstrip s) as [| c r]; [exact I |].
  rewrite Heq in Hs. exact Hs.
Qed.

Lemma rstrip_idemp (s : list N) : rstrip (rstrip s) = rstrip s.
Proof.
  unfold rstrip. rewrite rev_involutive.
  by rewrite (lstrip_fixed _ (lstrip_no_space_first _)).
Qed.

Lemma strip_idemp (s : list N) : strip (strip s) = strip s.
Proof.
  unfold strip.
  rewrite (lstrip_fixed (rstrip (lstrip s))).
  - apply rstrip_idemp.
  - apply rstrip_no_space_first, lstrip_no_space_first.
Qed.

Lemma lstrip_no_break (s : list N) : no_break s -> no_break (lstrip s).
Proof.
  intros Hs. destruct (lstrip_suffix s) as (pre & Heq & _).
  unfold no_break in *. rewrite Heq in Hs.
  by apply Forall_app in Hs as [_ ?].
Qed.

Lemma strip_no_break (s : list N) : no_break s -> no_break (strip s).
Proof.
  intros Hs. unfold strip, rstrip.
  apply Forall_rev, lstrip_no_break, Forall_rev, lstrip_no_break, Hs.
Qed.

Lemma CR_is_linebreak : Py_UNICODE_ISLINEBREAK CR = true.
Proof. reflexivity. Qed.

Lemma LF_is_linebreak : Py_UNICODE_ISLINEBREAK LF = true.
Proof. reflexivity. Qed.

(** A joined text starts with its first part. *)
Lemma join_cons_prefix (sep l : list N) (parts : list (list N)) :
  exists rest, join sep (l :: parts) = l ++ rest.
Proof.
  destruct parts as [| l' parts]; simpl.
  - exists []. by rewrite app_nil_r.
  - by eexists.
Qed.

(** Joining parts that are not empty gives the empty text only for no
    parts at all. *)
Lemma join_nil_inv (sep : list N) (parts : list (list N)) :
  Forall (fun l => l <> []) parts -> join sep parts = [] -> parts = [].
Proof.
  intros Hparts Hjoin. destruct parts as [| l parts]; [reflexivity |].
  inversion Hparts as [| ? ? Hl _]; subst.
  destruct (join_cons_prefix sep l parts) as (rest & Heq).
  rewrite Heq in Hjoin. destruct l; [done | discriminate].
Qed.


Lemma linesep_is_linesep `{Collaborators} : is_linesep linesep.
Proof. unfold is_linesep, linesep. destruct os_name; auto. Qed.

(** Splitting undoes joining, for lines that are not empty and hold no
    line break. *)
Lemma splitlines_join (sep : list N) (parts : list (list N)) :
  is_linesep sep ->
  Forall (fun l => l <> [] /\ no_break l) parts ->
  splitlines (join sep parts) = parts.
Proof.
  intros Hsep. induction parts as [| l parts IH]; intros Hparts; [reflexivity |].
  inversion Hparts as [| ? ? [Hne Hl] Hrest]; subst.
  specialize (IH Hrest).
  destruct parts as [| l' parts].
  - simpl. unfold splitlines.
    rewrite <- (app_nil_r l) at 1.
    rewrite splitlines_from_no_break by exact Hl. rewrite app_nil_r. simpl.
    destruct (rev l) eqn:Hrev.
    + apply (f_equal (@rev N)) in Hrev. rewrite rev_involutive in Hrev. done.
    + by rewrite <- Hrev, rev_involutive.
  - change (join sep (l :: l' :: parts)) with (l ++ sep ++ join sep (l' :: parts)).
    unfold splitlines in *.
    rewrite splitlines_from_no_break by exact Hl. rewrite app_nil_r.
    destruct (join_cons_prefix sep l' parts) as (tl & Hj).
    inversion Hrest as [| ? ? [Hne' Hl'] _]; subst.
    destruct l' as [| c' l'']; [done |].
    inversion Hl' as [| ? ? Hc' _]; subst.
    remember (join sep ((c' :: l'') :: parts)) as J eqn:HJ.
    rewrite Hj in *. clear Hj HJ.
    destruct Hsep as [-> | [-> | ->]].
    + change ([LF] ++ (c' :: l'') ++ tl) with (LF :: c' :: l'' ++ tl).
      rewrite splitlines_from_cons, LF_is_linebreak, rev_involutive. f_equal.
      rewrite (bool_decide_eq_false_2 (LF = CR)) by discriminate. exact IH.
    + change ([CR; LF] ++ (c' :: l'') ++ tl) with (CR :: LF :: c' :: l'' ++ tl).
      rewrite splitlines_from_cons, CR_is_linebreak, rev_involutive. f_equal.
      rewrite !bool_decide_eq_true_2 by reflexivity. exact IH.
    + change ([CR] ++ (c' :: l'') ++ tl) with (CR :: c' :: l'' ++ tl).
      rewrite splitlines_from_cons, CR_is_linebreak, rev_involutive. f_equal.
      rewrite (bool_decide_eq_false_2 (c' = LF)), andb_false_r; [exact IH |].
      intros ->. rewrite LF_is_linebreak in Hc'. discriminate.
Qed.

Section BlacklistedUsernameAddForm_spec.
Context `{Collaborators}.


Lemma normalize_kept_lines (text : list N) :
  BlacklistedUsernameAddForm.normalize text = join linesep (kept_lines text).
Proof. reflexivity. Qed.

(** Every kept line is stripped, not empty, and holds no line break. *)
Lemma kept_lines_spec (text : list N) :
  Forall (fun l => l <> [] /\ no_break l /\ strip l = l) (kept_lines text).
Proof.
  unfold kept_lines. apply Forall_forall. intros l Hin.
  apply list_elem_of_In, in_map_iff in Hin as (s & <- & Hs).
  apply List.filter_In in Hs as [Hs Hnb].
  unfold non_blank in Hnb. apply negb_true_iff, bool_decide_eq_false in Hnb.
  split; [exact Hnb |]. split; [| apply strip_idemp].
  apply strip_no_break.
  pose proof (splitlines_no_break text) as Hall.
  rewrite Forall_forall in Hall. apply Hall. by apply list_elem_of_In.
Qed.

(** Lines that are stripped and not empty are all kept, as they are. *)
Lemma kept_lines_fixed (parts : list (list N)) :
  Forall (fun l => l <> [] /\ strip l = l) parts ->
  map strip (List.filter non_blank parts) = parts.
Proof.
  induction 1 as [| l ls [Hne Hstrip] _ IH]; [reflexivity |].
  simpl. unfold non_blank at 1. rewrite Hstrip.
  rewrite (bool_decide_eq_false_2 (l = [])) by exact Hne.
  simpl. by rewrite Hstrip, IH.
Qed.

Lemma kept_lines_nil (text : list N) :
  kept_lines text = [] <-> existsb non_blank (splitlines text) = false.
Proof.
  unfold kept_lines.
  induction (splitlines text) as [| l ls IH]; simpl; [done |].
  destruct (non_blank l); simpl; [split; discriminate | exact IH].
Qed.

Lemma normalize_nil (text : list N) :
  BlacklistedUsernameAddForm.normalize text = []
  <-> existsb non_blank (splitlines text) = false.
Proof.
  rewrite normalize_kept_lines, <- kept_lines_nil. split.
  - apply join_nil_inv.
    eapply Forall_impl; [apply kept_lines_spec |]. by intros l [? _].
  - by intros ->.
Qed.

(** C6: [BlacklistedUsernameAddForm.clean] replaces the 'usernames' text
    by its normal form.  If no line of the text has anything but spaces,
    or if the key 'usernames' is absent from the cleaned data, the error
    list of 'usernames' becomes the one message "Please enter at least
    one username to blacklist."; if at least one line is not blank, the
    errors are left as they were. *)
Theorem blacklist_clean_requires_a_username (data : gmap string value)
    (errs : gmap string (list string)) (text : list N) :
  let msg := "Please enter at least one username to blacklist."%string in
  BlacklistedUsernameAddForm.clean (delete "usernames" data) errs
  = Return (delete "usernames" data, <["usernames" := [msg]]> errs)
  /\ BlacklistedUsernameAddForm.clean (<["usernames" := VStr text]> data) errs
     = Return (<["usernames" := VStr (BlacklistedUsernameAddForm.normalize text)]> data,
               if existsb non_blank (splitlines text)
               then errs
               else <["usernames" := [msg]]> errs).
Proof.
  intros msg. unfold BlacklistedUsernameAddForm.clean. split.
  - rewrite lookup_delete_eq. simpl. by rewrite lookup_delete_eq.
  - rewrite lookup_insert_eq. simpl.
    rewrite lookup_insert_eq, insert_insert_eq.
    destruct (existsb non_blank (splitlines text)) eqn:Hex.
    + rewrite bool_decide_eq_false_2; [reflexivity |].
      intros [= Hnil]. apply normalize_nil in Hnil. congruence.
    + apply normalize_nil in Hex. rewrite Hex.
      by rewrite bool_decide_eq_true_2.
Qed.

(** C10: the normalisation of the bulk user names (strip each line, drop
    the blank ones, join with [os.linesep]) is idempotent, on every text
    and every platform. *)
Theorem blacklist_normalize_idempotent (text : list N) :
  BlacklistedUsernameAddForm.normalize (BlacklistedUsernameAddForm.normalize text)
  = BlacklistedUsernameAddForm.normalize text.
Proof.
  rewrite (normalize_kept_lines text), normalize_kept_lines.
  f_equal. unfold kept_lines at 1.
  pose proof (kept_lines_spec text) as Hkept.
  rewrite splitlines_join.
  - apply kept_lines_fixed.
    eapply Forall_impl; [exact Hkept |]. by intros l (? & _ & ?).
  - apply linesep_is_linesep.
  - eapply Forall_impl; [exact Hkept |]. by intros l (? & ? & _).
Qed.

End BlacklistedUsernameAddForm_spec.


(** * Further properties of the forms *)

Local Open Scope string_scope.

Lemma dict_get_delete_ne (d : gmap string value) (k k' : string) :
  k <> k' -> dict_get (delete k d) k' = dict_get d k'.
Proof. intros Hne. unfold dict_get. by rewrite lookup_delete_ne. Qed.

Lemma dict_get_delete_eq (d : gmap string value) (k : string) :
  dict_get (delete k d) k = VNone.
Proof. unfold dict_get. by rewrite lookup_delete_eq. Qed.

(** ** UserRegisterForm.clean, in full *)
Section UserRegisterForm_more.
Context `{Collaborators}.

(** The outcome of the confirmation check, with the deletion resolved:
    [del data['password2']] is reached only when the key is there. *)
Lemma register_clean_eq (data : gmap string value)
    (errs : gmap string (list string)) :
  UserRegisterForm.clean data errs
  = Return
      (if py_ne (dict_get data "password") (dict_get data "password2")
          && truthy (dict_get data "password2")
       then delete "password2" data else data,
       if py_ne (dict_get data "password") (dict_get data "password2")
       then <["password2" := [ugettext "The passwords did not match."]]> errs
       else errs).
Proof.
  unfold UserRegisterForm.clean.
  destruct (py_ne _ _); [| reflexivity]. simpl.
  destruct (truthy (dict_get data "password2")) eqn:Hp2; [| reflexivity].
  destruct (truthy_dict_get _ _ Hp2) as [v Hv].
  by rewrite (delitem_Some _ _ _ Hv).
Qed.

(** X1: [UserRegisterForm.clean] never raises.  On a mismatch the
    confirmation is taken out of the cleaned data exactly when it is true
    in an [if] (a non-empty string); every other entry of the cleaned
    data, 'password' included, and every other error list is kept. *)
Theorem register_clean_never_raises (data : gmap string value)
    (errs : gmap string (list string)) :
  exists data' errs',
    UserRegisterForm.clean data errs = Return (data', errs')
    /\ data' !! "password2"
       = (if py_ne (dict_get data "password") (dict_get data "password2")
             && truthy (dict_get data "password2")
          then None else data !! "password2")
    /\ (forall k, k <> "password2" -> data' !! k = data !! k)
    /\ (forall k, k <> "password2" -> errs' !! k = errs !! k).
Proof.
  rewrite register_clean_eq. eexists _, _. split; [reflexivity |].
  destruct (py_ne _ _); simpl.
  - destruct (truthy (dict_get data "password2")).
    + split; [apply lookup_delete_eq |].
      split; intros k Hk; [by rewrite lookup_delete_ne | by rewrite lookup_insert_ne].
    + split; [reflexivity |].
      split; intros k Hk; [reflexivity | by rewrite lookup_insert_ne].
  - split; [reflexivity |]. split; intros k Hk; reflexivity.
Qed.

(** X2: the confirmation check is idempotent: run on its own result, it
    returns that result again. *)
Theorem register_clean_idempotent (data : gmap string value)
    (errs : gmap string (list string)) :
  (UserRegisterForm.clean data errs
     ≫= fun r => UserRegisterForm.clean r.1 r.2)
  = UserRegisterForm.clean data errs.
Proof.
  rewrite (register_clean_eq data errs). simpl.
  rewrite register_clean_eq.
  destruct (py_ne (dict_get data "password") (dict_get data "password2")) eqn:Hne;
    simpl.
  - destruct (truthy (dict_get data "password2")) eqn:Hp2; simpl.
    + rewrite dict_get_delete_ne by done. rewrite dict_get_delete_eq. simpl.
      rewrite andb_false_r.
      destruct (py_ne (dict_get data "password") VNone);
        [by rewrite insert_insert_eq | reflexivity].
    + rewrite Hne, Hp2. simpl. by rewrite insert_insert_eq.
  - rewrite Hne. reflexivity.
Qed.

End UserRegisterForm_more.

(** ** UserDeleteForm, in full *)
Section UserDeleteForm_more.
Context `{Collaborators}.

(** X7: [UserDeleteForm.clean_password] has no [return]: whenever it
    returns, it returns [None], never the password it was given. *)
Theorem delete_clean_password_returns_none (request : option Request)
    (data : gmap string value) :
  UserDeleteForm.clean_password request data = Return VNone
  \/ exists e, UserDeleteForm.clean_password request data = Raise e.
Proof.
  unfold UserDeleteForm.clean_password.
  destruct request as [r |]; simpl; [| by eauto].
  destruct (getitem data "password") as [pw |]; simpl; [| by eauto].
  destruct (check_password _ _); simpl; by eauto.
Qed.

(** X8: the tamper check is silent for every other account:
    [UserDeleteForm.clean] returns [None] and leaves the world, the log
    included, as it was exactly when the profile of the requesting account
    does not have the developer flag. *)
Theorem delete_clean_silent_iff_not_developer (r : Request) (w : World) :
  UserDeleteForm.clean (Some r) w = (Return VNone, w)
  <-> is_developer (get_profile (user r)) = false.
Proof.
  unfold UserDeleteForm.clean, bind, lift, ret, throw, log_msg. simpl.
  destruct (is_developer (get_profile (user r))); simpl.
  - split; intros Heq; discriminate Heq.
  - split; reflexivity.
Qed.

End UserDeleteForm_more.

(** ** UserEditForm.clean, in full *)
Section UserEditForm_clean_more.
Context `{Collaborators}.

(** X3: when the cleaned data holds neither a new password nor a
    confirmation that is true in an [if], [UserEditForm.clean] does not
    look at 'oldpassword' at all: whether it is right, wrong or missing,
    the outcome is that of the confirmation check alone. *)
Theorem edit_clean_skips_old_password (r : Request)
    (data : gmap string value) (errs : gmap string (list string)) :
  truthy (dict_get data "password") || truthy (dict_get data "password2") = false ->
  UserEditForm.clean (Some r) data errs = UserRegisterForm.clean data errs.
Proof.
  intros Hnone. unfold UserEditForm.clean. simpl. by rewrite Hnone.
Qed.

(** X4: when a new password or a confirmation is supplied and the cleaned
    data has no 'oldpassword' entry, [UserEditForm.clean] raises
    KeyError('oldpassword'); no validation error is produced. *)
Theorem edit_clean_old_password_missing (r : Request)
    (data : gmap string value) (errs : gmap string (list string)) :
  truthy (dict_get data "password") || truthy (dict_get data "password2") = true ->
  data !! "oldpassword" = None ->
  UserEditForm.clean (Some r) data errs = Raise (KeyError "oldpassword").
Proof.
  intros Hnew Hold. unfold UserEditForm.clean, getitem. simpl.
  by rewrite Hnew, Hold.
Qed.

(** X5: the two checks of the edit form add up: a wrong old password
    together with a confirmation that differs from the new password leaves
    both messages, one on 'oldpassword' and one on 'password2', and the old
    password is gone from the cleaned data. *)
Theorem edit_clean_both_errors (r : Request) (data : gmap string value)
    (errs : gmap string (list string)) (old : value) :
  truthy (dict_get data "password") || truthy (dict_get data "password2") = true ->
  data !! "oldpassword" = Some old ->
  check_password (get_profile (user r)) old = false ->
  dict_get data "password" <> dict_get data "password2" ->
  exists data' errs',
    UserEditForm.clean (Some r) data errs = Return (data', errs')
    /\ errs' !! "oldpassword" = Some [ugettext "Wrong password entered!"]
    /\ errs' !! "password2" = Some [ugettext "The passwords did not match."]
    /\ data' !! "oldpassword" = None.
Proof.
  intros Hnew Hold Hbad Hne.
  rewrite (edit_clean_eq r data errs old Hnew Hold), Hbad.
  rewrite register_clean_eq.
  rewrite !dict_get_delete_ne by done.
  apply py_ne_spec in Hne. rewrite Hne. simpl.
  eexists _, _. split; [reflexivity |].
  split; [by rewrite lookup_insert_ne, lookup_insert_eq |].
  split; [by rewrite lookup_insert_eq |].
  destruct (truthy (dict_get data "password2")).
  - rewrite lookup_delete_ne by done. apply lookup_delete_eq.
  - apply lookup_delete_eq.
Qed.

(** X6: [UserEditForm.clean] never raises a validation error, and when it
    returns, every entry of the cleaned data and of the errors other than
    those of 'oldpassword' and 'password2' is as it was. *)
Theorem edit_clean_frame (request : option Request)
    (data : gmap string value) (errs : gmap string (list string)) :
  (forall msg, UserEditForm.clean request data errs <> Raise (ValidationError msg))
  /\ forall data' errs',
      UserEditForm.clean request data errs = Return (data', errs') ->
      forall k, k <> "oldpassword" -> k <> "password2" ->
                data' !! k = data !! k /\ errs' !! k = errs !! k.
Proof.
  unfold UserEditForm.clean.
  destruct request as [r |]; simpl; [| split; [discriminate | discriminate]].
  destruct (truthy (dict_get data "password") || truthy (dict_get data "password2")).
  2: { simpl. rewrite register_clean_eq. split; [discriminate |].
       intros data' errs' [= <- <-] k _ Hk.
       destruct (py_ne _ _); simpl; [| done].
       rewrite lookup_insert_ne by done.
       destruct (truthy (dict_get data "password2"));
         [by rewrite lookup_delete_ne | done]. }
  unfold getitem. destruct (data !! "oldpassword") as [old |] eqn:Hold; simpl;
    [| split; [discriminate | discriminate]].
  destruct (check_password _ _); simpl.
  - rewrite register_clean_eq. split; [discriminate |].
    intros data' errs' [= <- <-] k _ Hk.
    destruct (py_ne _ _); simpl; [| done].
    rewrite lookup_insert_ne by done.
    destruct (truthy (dict_get data "password2"));
      [by rewrite lookup_delete_ne | done].
  - rewrite (delitem_Some _ _ _ Hold). simpl.
    rewrite register_clean_eq. split; [discriminate |].
    intros data' errs' [= <- <-] k Hk1 Hk2.
    destruct (py_ne _ _); simpl.
    + rewrite lookup_insert_ne by done. rewrite lookup_insert_ne by done.
      destruct (truthy (dict_get (delete "oldpassword" data) "password2")).
      * by rewrite !lookup_delete_ne.
      * by rewrite lookup_delete_ne.
    + by rewrite lookup_insert_ne, lookup_delete_ne.
Qed.

(** X9: a photo that is false in an [if] ([None] when nothing was
    uploaded, or a file without a name) is not validated: [clean_photo]
    returns [None], whatever its type and size. *)
Theorem edit_clean_photo_absent (data : gmap string value) (photo : value) :
  data !! "photo" = Some photo ->
  truthy photo = false ->
  UserEditForm.clean_photo data = Return VNone.
Proof.
  intros Hphoto Hfalse. unfold UserEditForm.clean_photo.
  rewrite (getitem_Some _ _ _ Hphoto). simpl. by rewrite Hfalse.
Qed.

(** X10: the size quoted by the message of [clean_photo] is not the size
    it enforces.  The message names the whole megabytes of
    settings.MAX_PHOTO_UPLOAD_SIZE less one; an upload of an allowed type
    whose size lies anywhere from that quoted size up to the setting is
    accepted, and that range spans at least one megabyte. *)
Theorem edit_clean_photo_quoted_limit (data : gmap string value)
    (f : UploadedFile) :
  data !! "photo" = Some (VFile f) ->
  truthy (VFile f) = true ->
  content_type f = "image/png" \/ content_type f = "image/jpeg" ->
  let quoted := (MAX_PHOTO_UPLOAD_SIZE / 1024 / 1024 - 1)%Z in
  (quoted * 1024 * 1024 <= size f <= MAX_PHOTO_UPLOAD_SIZE)%Z ->
  UserEditForm.clean_photo data = Return (VFile f)
  /\ (quoted * 1024 * 1024 + 1024 * 1024 <= MAX_PHOTO_UPLOAD_SIZE)%Z.
Proof.
  intros Hphoto Htrue Hty quoted [_ Hsz]. split.
  - unfold UserEditForm.clean_photo.
    rewrite (getitem_Some _ _ _ Hphoto). simpl. simpl in Htrue. rewrite Htrue.
    simpl.
    assert (bool_decide (content_type f = "image/png")
            || bool_decide (content_type f = "image/jpeg") = true) as ->.
    { rewrite orb_true_iff, !bool_decide_eq_true. exact Hty. }
    simpl. rewrite Z.gtb_ltb.
    by rewrite (proj2 (Z.ltb_ge _ _) Hsz).
  - subst quoted.
    pose proof (Z.mul_div_le (MAX_PHOTO_UPLOAD_SIZE / 1024) 1024 ltac:(lia)).
    pose proof (Z.mul_div_le MAX_PHOTO_UPLOAD_SIZE 1024 ltac:(lia)).
    lia.
Qed.

End UserEditForm_clean_more.

(** A profile edit that changes nothing about the password. *)
Lemma edit_clean_skips_old_password_witness :
  @UserEditForm.clean demo (Some (demo_request demo_profile))
    {[ "oldpassword" := VStr (u "guess"); "password" := VStr [];
       "password2" := VStr [] ]} ∅
  = @UserRegisterForm.clean demo
      {[ "oldpassword" := VStr (u "guess"); "password" := VStr [];
         "password2" := VStr [] ]} ∅.
Proof.
  apply (@edit_clean_skips_old_password demo). vm_compute. reflexivity.
Defined.

Lemma edit_clean_old_password_missing_witness :
  @UserEditForm.clean demo (Some (demo_request demo_profile))
    {[ "password" := VStr (u "n3w"); "password2" := VStr (u "n3w") ]} ∅
  = Raise (KeyError "oldpassword").
Proof.
  apply (@edit_clean_old_password_missing demo); vm_compute; reflexivity.
Defined.

Lemma edit_clean_both_errors_witness :
  exists data' errs',
    @UserEditForm.clean demo (Some (demo_request demo_profile))
      {[ "oldpassword" := VStr (u "guess"); "password" := VStr (u "n3w");
         "password2" := VStr (u "new") ]} ∅ = Return (data', errs')
    /\ errs' !! "oldpassword" = Some ["Wrong password entered!"]
    /\ errs' !! "password2" = Some ["The passwords did not match."]
    /\ data' !! "oldpassword" = None.
Proof.
  apply (@edit_clean_both_errors demo (demo_request demo_profile) _ ∅
           (VStr (u "guess"))); try (vm_compute; reflexivity).
  vm_compute. discriminate.
Defined.

Lemma edit_clean_photo_absent_witness :
  @UserEditForm.clean_photo demo {[ "photo" := VNone ]} = Return VNone.
Proof.
  apply (@edit_clean_photo_absent demo _ VNone); vm_compute; reflexivity.
Defined.

Lemma edit_clean_photo_quoted_limit_witness :
  @UserEditForm.clean_photo demo
    {[ "photo" := VFile {| name := "me.png"; content_type := "image/png";
                           size := 3 * 1024 * 1024 + 512 * 1024;
                           chunks := [] |} ]}
  = Return (VFile {| name := "me.png"; content_type := "image/png";
                     size := 3 * 1024 * 1024 + 512 * 1024; chunks := [] |})
  /\ (3 * 1024 * 1024 + 1024 * 1024 <= 4 * 1024 * 1024)%Z.
Proof.
  apply (@edit_clean_photo_quoted_limit demo
           {[ "photo" := VFile {| name := "me.png"; content_type := "image/png";
                                  size := 3 * 1024 * 1024 + 512 * 1024;
                                  chunks := [] |} ]}
           {| name := "me.png"; content_type := "image/png";
              size := 3 * 1024 * 1024 + 512 * 1024; chunks := [] |}).
  - vm_compute. reflexivity.
  - reflexivity.
  - left. reflexivity.
  - vm_compute. split; discriminate.
Defined.

(** ** UserEditForm.save, in full *)
Section UserEditForm_save_more.
Context `{Collaborators}.

(** The write loop changes one file and nothing else. *)
Lemma write_chunks_world (fh : string) (cs : list string) :
  forall w c,
    files w !! fh = Some c ->
    exists w',
      UserEditForm.write_chunks fh cs w = (Return tt, w')
      /\ trace w' = (trace w ++ map (EvWrite fh) cs)%list
      /\ log w' = log w /\ dirs w' = dirs w /\ opened w' = opened w
      /\ queue w' = queue w /\ saved w' = saved w
      /\ files w' = <[fh := c ++ String.concat "" (map text_mode cs)]> (files w).
Proof.
  induction cs as [| chunk rest IH]; intros w c Hc.
  - exists w. simpl. unfold ret. rewrite app_nil_r, string_app_nil_r.
    repeat split; try reflexivity. by rewrite insert_id.
  - cbn [UserEditForm.write_chunks]. unfold bind, fh_write.
    match goal with
    | |- context [UserEditForm.write_chunks fh rest ?w1] =>
        destruct (IH w1 (c ++ text_mode chunk))
          as (w' & -> & Htr & Hlog & Hdirs & Hop & Hq & Hs & Hf)
    end.
    { simpl. rewrite Hc. simpl. apply lookup_insert_eq. }
    exists w'. simpl in *. split; [reflexivity |].
    rewrite Htr, Hlog, Hdirs, Hop, Hq, Hs, Hf, <- app_assoc.
    repeat split; try reflexivity.
    rewrite insert_insert_eq. f_equal.
    rewrite string_app_assoc. f_equal.
    destruct rest; [by rewrite string_app_nil_r | reflexivity].
Qed.

(** [save] with a photo: the world it leaves, field by field. *)
Lemma edit_save_photo_world (data : gmap string value) (f : UploadedFile)
    (pw : value) (w : World) :
  data !! "photo" = Some (VFile f) ->
  truthy (VFile f) = true ->
  data !! "password" = Some pw ->
  let p1 := UserEditForm.set_picture_type (ModelForm_save data) "image/png" in
  let p2 := if truthy pw then set_password p1 pw else p1 in
  let tmp := picture_path p1 ++ "__unconverted" in
  let there := bool_decide (picture_dir p1 ∈ dirs w)
               || bool_decide (is_Some (files w !! picture_dir p1)) in
  exists w',
    UserEditForm.save data w = (Return p2, w')
    /\ log w' =
       (log w
          ++ (if truthy pw
              then [(INFO, ("User (" ++ UserProfile_unicode p2
                              ++ ") changed their password")%string)]
              else [])
          ++ [(DEBUG, ("User (" ++ UserProfile_unicode p2
                         ++ ") updated their profile")%string)])%list
    /\ dirs w' = (if there then dirs w else {[picture_dir p1]} ∪ dirs w)
    /\ files w' = <[tmp := String.concat "" (map text_mode (chunks f))]> (files w)
    /\ opened w' = ({[tmp]} ∪ opened w) ∖ {[tmp]}
    /\ queue w' = (queue w ++ [(tmp, picture_path p1)])%list
    /\ saved w' = (saved w ++ [p2])%list.
Proof.
  intros Hphoto Htrue Hpw p1 p2 tmp there.
  unfold UserEditForm.save.
  unfold bind at 1. unfold lift at 1. rewrite (getitem_Some _ _ _ Hphoto).
  rewrite Htrue.
  fold p1. fold tmp.
  unfold bind, lift, ret, os_path_exists, os_makedirs, open_w, fh_close,
    resize_photo_delay, log_msg, model_save.
  rewrite (getitem_Some _ _ _ Hpw).
  fold there. destruct there; simpl;
    match goal with
    | |- context [UserEditForm.write_chunks tmp (chunks f) ?w1] =>
        destruct (write_chunks_world tmp (chunks f) w1 "")
          as (w2 & -> & Htr & Hlog & Hdirs & Hop & Hq & Hs & Hf);
          [simpl; apply lookup_insert_eq |]
    end; simpl in *;
    rewrite insert_insert_eq in Hf;
    subst p2; destruct (truthy pw); simpl;
    (eexists; split; [reflexivity |]); simpl;
    rewrite Hlog, Hdirs, Hop, Hq, Hs, Hf; simpl;
    rewrite <- ?app_assoc; simpl;
    repeat split; reflexivity.
Qed.

(** [save] without a photo: the world it leaves, field by field. *)
Lemma edit_save_plain_world (data : gmap string value) (photo pw : value)
    (w : World) :
  data !! "photo" = Some photo ->
  truthy photo = false ->
  data !! "password" = Some pw ->
  let p1 := ModelForm_save data in
  let p2 := if truthy pw then set_password p1 pw else p1 in
  exists w',
    UserEditForm.save data w = (Return p2, w')
    /\ log w' =
       (log w
          ++ (if truthy pw
              then [(INFO, ("User (" ++ UserProfile_unicode p2
                              ++ ") changed their password")%string)]
              else [])
          ++ [(DEBUG, ("User (" ++ UserProfile_unicode p2
                         ++ ") updated their profile")%string)])%list
    /\ dirs w' = dirs w /\ files w' = files w /\ opened w' = opened w
    /\ queue w' = queue w
    /\ saved w' = (saved w ++ [p2])%list
    /\ trace w' =
       (trace w
          ++ (if truthy pw
              then [EvLog INFO ("User (" ++ UserProfile_unicode p2
                                  ++ ") changed their password")]
              else [])
          ++ [EvLog DEBUG ("User (" ++ UserProfile_unicode p2
                             ++ ") updated their profile");
              EvSave p2])%list.
Proof.
  intros Hphoto Hfalse Hpw p1 p2.
  unfold UserEditForm.save.
  unfold bind, lift, ret, log_msg, model_save.
  rewrite (getitem_Some _ _ _ Hphoto), Hfalse, (getitem_Some _ _ _ Hpw).
  fold p1. subst p2. destruct (truthy pw); simpl;
    (eexists; split; [reflexivity |]); simpl;
    rewrite <- ?app_assoc; repeat split; reflexivity.
Qed.

(** X11: without a photo ([None], or a file without a name) [save]
    touches neither the file system nor the task queue, and the profile it
    writes to the database has the picture type the model form gave it. *)
Theorem edit_save_without_photo (data : gmap string value) (photo pw : value)
    (w : World) :
  data !! "photo" = Some photo ->
  truthy photo = false ->
  data !! "password" = Some pw ->
  exists (p' : UserProfile) (w' : World),
    UserEditForm.save data w = (Return p', w')
    /\ picture_type p' = picture_type (ModelForm_save data)
    /\ files w' = files w /\ dirs w' = dirs w /\ opened w' = opened w
    /\ queue w' = queue w
    /\ saved w' = (saved w ++ [p'])%list.
Proof.
  intros Hphoto Hfalse Hpw.
  destruct (edit_save_plain_world data photo pw w Hphoto Hfalse Hpw)
    as (w' & Hrun & _ & Hdirs & Hfiles & Hop & Hq & Hs & _).
  eexists _, w'. split; [exact Hrun |].
  split; [by destruct (truthy pw) |]. done.
Qed.

(** X12: [save] replaces the stored credential exactly when the cleaned
    'password' is true in an [if] (a non-empty string), and logs the INFO
    record "changed their password" exactly then; the DEBUG record
    "updated their profile" is logged in every case, last. *)
Theorem edit_save_password (data : gmap string value) (photo pw : value)
    (w : World) :
  data !! "photo" = Some photo ->
  (truthy photo = false \/ exists f, photo = VFile f) ->
  data !! "password" = Some pw ->
  exists (p' : UserProfile) (w' : World),
    UserEditForm.save data w = (Return p', w')
    /\ password p'
       = (if truthy pw then create_password pw
          else password (ModelForm_save data))
    /\ log w' =
       (log w
          ++ (if truthy pw
              then [(INFO, ("User (" ++ UserProfile_unicode p'
                              ++ ") changed their password")%string)]
              else [])
          ++ [(DEBUG, ("User (" ++ UserProfile_unicode p'
                         ++ ") updated their profile")%string)])%list.
Proof.
  intros Hphoto Hkind Hpw.
  destruct (truthy photo) eqn:Htrue.
  - destruct Hkind as [? | [f ->]]; [discriminate |].
    destruct (edit_save_photo_world data f pw w Hphoto Htrue Hpw)
      as (w' & Hrun & Hlog & _).
    eexists _, w'. split; [exact Hrun |]. split; [| exact Hlog].
    by destruct (truthy pw).
  - destruct (edit_save_plain_world data photo pw w Hphoto Htrue Hpw)
      as (w' & Hrun & Hlog & _).
    eexists _, w'. split; [exact Hrun |]. split; [| exact Hlog].
    by destruct (truthy pw).
Qed.


(** X15: with a photo, the only file [save] writes is
    <picture_path>__unconverted: every other file keeps its content, and
    the handle it opened is closed again. *)
Theorem edit_save_other_files (data : gmap string value) (f : UploadedFile)
    (pw : value) (w : World) :
  data !! "photo" = Some (VFile f) ->
  truthy (VFile f) = true ->
  data !! "password" = Some pw ->
  let tmp := picture_path (ModelForm_save data) ++ "__unconverted" in
  exists (p' : UserProfile) (w' : World),
    UserEditForm.save data w = (Return p', w')
    /\ (forall path, path <> tmp -> files w' !! path = files w !! path)
    /\ opened w' = opened w ∖ {[tmp]}.
Proof.
  intros Hphoto Htrue Hpw tmp.
  destruct (edit_save_photo_world data f pw w Hphoto Htrue Hpw)
    as (w' & Hrun & _ & _ & Hfiles & Hop & _).
  simpl in Hfiles, Hop. fold tmp in Hfiles, Hop.
  eexists _, w'. split; [exact Hrun |]. split.
  - intros path Hne. rewrite Hfiles. by rewrite lookup_insert_ne.
  - rewrite Hop. apply set_eq. intros x.
    rewrite !elem_of_difference, elem_of_union, elem_of_singleton. tauto.
Qed.

End UserEditForm_save_more.

(** A profile edit without an upload. *)
Lemma edit_save_without_photo_witness :
  exists (p' : UserProfile) (w' : World),
    @UserEditForm.save demo {[ "photo" := VNone; "password" := VStr [] ]}
      empty_world = (Return p', w')
    /\ picture_type p' = ""
    /\ files w' = ∅ /\ dirs w' = ∅ /\ opened w' = ∅
    /\ queue w' = []
    /\ saved w' = [p'].
Proof.
  apply (@edit_save_without_photo demo
           {[ "photo" := VNone; "password" := VStr [] ]} VNone (VStr [])
           empty_world); vm_compute; reflexivity.
Defined.

Lemma edit_save_password_witness :
  exists (p' : UserProfile) (w' : World),
    @UserEditForm.save demo edit_with_photo empty_world = (Return p', w')
    /\ password p' = "n3w"
    /\ log w' = [(INFO, ("User (" ++ @UserProfile_unicode demo p'
                           ++ ") changed their password")%string);
                 (DEBUG, ("User (" ++ @UserProfile_unicode demo p'
                            ++ ") updated their profile")%string)].
Proof.
  apply (@edit_save_password demo edit_with_photo (VFile demo_photo)
           (VStr (u "n3w")) empty_world).
  - exact (proj1 edit_with_photo_lookups).
  - right. by exists demo_photo.
  - exact (proj2 edit_with_photo_lookups).
Defined.


Lemma edit_save_other_files_witness :
  exists (p' : UserProfile) (w' : World),
    @UserEditForm.save demo edit_with_photo empty_world = (Return p', w')
    /\ (forall path, path <> "/userpics/0/1/1001.png__unconverted" ->
                     files w' !! path = files empty_world !! path)
    /\ opened w' = opened empty_world ∖ {[ "/userpics/0/1/1001.png__unconverted" ]}.
Proof.
  exact (@edit_save_other_files demo edit_with_photo demo_photo
           (VStr (u "n3w")) empty_world
           (proj1 edit_with_photo_lookups) eq_refl
           (proj2 edit_with_photo_lookups)).
Defined.

(** ** BlacklistedUsernameAddForm, in full *)
Local Open Scope list_scope.

Section BlacklistedUsernameAddForm_more.
Context `{Collaborators}.

Lemma normalize_idemp (text : list N) :
  BlacklistedUsernameAddForm.normalize (BlacklistedUsernameAddForm.normalize text)
  = BlacklistedUsernameAddForm.normalize text.
Proof.
  rewrite (normalize_kept_lines text), normalize_kept_lines.
  f_equal. unfold kept_lines at 1.
  pose proof (kept_lines_spec text) as Hkept.
  rewrite splitlines_join.
  - apply kept_lines_fixed.
    eapply Forall_impl; [exact Hkept |]. by intros l (? & _ & ?).
  - apply linesep_is_linesep.
  - eapply Forall_impl; [exact Hkept |]. by intros l (? & ? & _).
Qed.

(** What [clean] does to a text. *)
Lemma blacklist_clean_text_eq (data : gmap string value)
    (errs : gmap string (list string)) (text : list N) :
  data !! "usernames" = Some (VStr text) ->
  BlacklistedUsernameAddForm.clean data errs
  = Return (<["usernames" := VStr (BlacklistedUsernameAddForm.normalize text)]> data,
            if bool_decide (BlacklistedUsernameAddForm.normalize text = [])
            then <["usernames" :=
                     ["Please enter at least one username to blacklist."%string]]> errs
            else errs).
Proof.
  intros Htext. unfold BlacklistedUsernameAddForm.clean. rewrite Htext. simpl.
  rewrite lookup_insert_eq.
  destruct (decide (BlacklistedUsernameAddForm.normalize text = [])) as [Hnil | Hne].
  - rewrite Hnil. by rewrite !bool_decide_eq_true_2.
  - rewrite (bool_decide_eq_false_2 (VStr _ = VStr [])) by congruence.
    by rewrite bool_decide_eq_false_2.
Qed.

(** What [clean] does without a text. *)
Lemma blacklist_clean_absent_eq (data : gmap string value)
    (errs : gmap string (list string)) :
  data !! "usernames" = None ->
  BlacklistedUsernameAddForm.clean data errs
  = Return (data,
            <["usernames" :=
                ["Please enter at least one username to blacklist."%string]]> errs).
Proof.
  intros Hnone. unfold BlacklistedUsernameAddForm.clean. rewrite Hnone. simpl.
  by rewrite Hnone.
Qed.

(** X16: the cleaned 'usernames' text splits back into the lines that
    were kept: [splitlines] of the normal form gives exactly the stripped
    non-blank lines of the submission, in their order, each of them not
    empty and unchanged by [strip]. *)
Theorem blacklist_normalized_lines (text : list N) :
  splitlines (BlacklistedUsernameAddForm.normalize text) = kept_lines text
  /\ Forall (fun l => l <> [] /\ strip l = l)
       (splitlines (BlacklistedUsernameAddForm.normalize text)).
Proof.
  pose proof (kept_lines_spec text) as Hkept.
  assert (splitlines (BlacklistedUsernameAddForm.normalize text) = kept_lines text)
    as Heq.
  { rewrite normalize_kept_lines. apply splitlines_join.
    - apply linesep_is_linesep.
    - eapply Forall_impl; [exact Hkept |]. by intros l (? & ? & _). }
  split; [exact Heq |]. rewrite Heq.
  eapply Forall_impl; [exact Hkept |]. by intros l (? & _ & ?).
Qed.

(** X17: [BlacklistedUsernameAddForm.clean] is idempotent: run on its own
    result it returns that result again, and where it raised it raises. *)
Theorem blacklist_clean_idempotent (data : gmap string value)
    (errs : gmap string (list string)) :
  (BlacklistedUsernameAddForm.clean data errs
     ≫= fun r => BlacklistedUsernameAddForm.clean r.1 r.2)
  = BlacklistedUsernameAddForm.clean data errs.
Proof.
  destruct (data !! "usernames") as [v |] eqn:Hv.
  - destruct v as [| b | text | f];
      try (unfold BlacklistedUsernameAddForm.clean; rewrite Hv; reflexivity).
    rewrite (blacklist_clean_text_eq data errs text Hv). simpl.
    rewrite (blacklist_clean_text_eq _ _ (BlacklistedUsernameAddForm.normalize text))
      by apply lookup_insert_eq.
    rewrite normalize_idemp, insert_insert_eq.
    destruct (bool_decide (BlacklistedUsernameAddForm.normalize text = []));
      [by rewrite insert_insert_eq | reflexivity].
  - rewrite (blacklist_clean_absent_eq data errs Hv). simpl.
    rewrite (blacklist_clean_absent_eq data _ Hv).
    by rewrite insert_insert_eq.
Qed.

End BlacklistedUsernameAddForm_more.

(** ** PasswordResetForm.save *)
Section PasswordResetForm_spec.
Context `{Collaborators}.
Variable base_save : IO unit.

Lemma logged_app (a b : list (Level * string)) (w : World) :
  logged b (logged a w) = logged (a ++ b) w.
Proof.
  unfold logged. simpl. by rewrite map_app, !app_assoc.
Qed.

Lemma logged_nil (w : World) : logged [] w = w.
Proof. destruct w. unfold logged. simpl. by rewrite !app_nil_r. Qed.

Lemma log_users_run (users_cache : list User) :
  forall w,
    PasswordResetForm.log_users users_cache w
    = (Return tt,
       logged (map (fun usr =>
                      (INFO, ("Password reset email sent for user ("
                                ++ User_unicode usr ++ ")")%string))
                 users_cache) w).
Proof.
  induction users_cache as [| usr rest IH]; intros w.
  - simpl. unfold ret. by rewrite logged_nil.
  - cbn [PasswordResetForm.log_users map]. unfold bind, log_msg.
    rewrite IH.
    change (_ :: map ?g rest) with ([g usr] ++ map g rest).
    rewrite <- logged_app. reflexivity.
Qed.

(** X18: [PasswordResetForm.save] writes one INFO record "Password reset
    email sent for user (<user>)" per user of [users_cache], in the order
    of the cache, and only then runs the [save] of the base class, in the
    world that holds those records; its outcome is that of the base class.
    With an empty cache it is the base class's [save]. *)
Theorem password_reset_save_logs_each_user (users_cache : list User)
    (w : World) :
  PasswordResetForm.save base_save users_cache w
  = base_save
      (logged (map (fun usr =>
                      (INFO, ("Password reset email sent for user ("
                                ++ User_unicode usr ++ ")")%string))
                 users_cache) w)
  /\ PasswordResetForm.save base_save [] w = base_save w.
Proof.
  unfold PasswordResetForm.save, bind. split.
  - by rewrite log_users_run.
  - rewrite log_users_run. simpl. by rewrite logged_nil.
Qed.

End PasswordResetForm_spec.

(** ** The cleaned text has no white space at its ends *)

Lemma strip_fixed (s : list N) :
  no_space_first s -> no_space_first (rev s) -> strip s = s.
Proof.
  intros Hfirst Hlast. unfold strip, rstrip.
  rewrite (lstrip_fixed s Hfirst), (lstrip_fixed (rev s) Hlast).
  apply rev_involutive.
Qed.

Lemma stripped_ends (s : list N) :
  strip s = s -> no_space_first s /\ no_space_first (rev s).
Proof.
  intros Hs. split.
  - rewrite <- Hs. apply rstrip_no_space_first, lstrip_no_space_first.
  - rewrite <- Hs at 1. unfold strip, rstrip. rewrite rev_involutive.
    apply lstrip_no_space_first.
Qed.

Lemma no_space_first_app (a b : list N) :
  a <> [] -> no_space_first a -> no_space_first (a ++ b).
Proof. destruct a; [done | by intros _ ?]. Qed.

Lemma join_no_space_first (sep : list N) (parts : list (list N)) :
  Forall (fun l => l <> [] /\ no_space_first l) parts ->
  no_space_first (join sep parts).
Proof.
  intros Hparts. destruct parts as [| l parts]; [exact I |].
  inversion Hparts as [| ? ? [Hne Hl] _]; subst.
  destruct (join_cons_prefix sep l parts) as (rest & ->).
  by apply no_space_first_app.
Qed.

Lemma join_no_space_last (sep : list N) (parts : list (list N)) :
  Forall (fun l => l <> [] /\ no_space_first (rev l)) parts ->
  no_space_first (rev (join sep parts)).
Proof.
  induction parts as [| l parts IH]; intros Hparts; [exact I |].
  inversion Hparts as [| ? ? [Hne Hl] Hrest]; subst.
  destruct parts as [| l' parts]; [exact Hl |].
  change (join sep (l :: l' :: parts)) with (l ++ sep ++ join sep (l' :: parts)).
  rewrite !rev_app_distr, <- app_assoc.
  apply no_space_first_app; [| by apply IH].
  intros Hnil. apply (f_equal (@rev N)) in Hnil.
  rewrite rev_involutive in Hnil. change (rev []) with (@nil N) in Hnil.
  apply join_nil_inv in Hnil; [discriminate |].
  eapply Forall_impl; [exact Hrest |]. by intros ? [? _].
Qed.

Section BlacklistedUsernameAddForm_ends.
Context `{Collaborators}.

(** X19: the cleaned 'usernames' text neither starts nor ends with white
    space: [strip] leaves the normal form as it is. *)
Theorem blacklist_normalized_is_stripped (text : list N) :
  strip (BlacklistedUsernameAddForm.normalize text)
  = BlacklistedUsernameAddForm.normalize text.
Proof.
  rewrite normalize_kept_lines.
  pose proof (kept_lines_spec text) as Hkept.
  apply strip_fixed.
  - apply join_no_space_first.
    eapply Forall_impl; [exact Hkept |].
    intros l (Hne & _ & Hl). split; [exact Hne |]. by apply stripped_ends.
  - apply join_no_space_last.
    eapply Forall_impl; [exact Hkept |].
    intros l (Hne & _ & Hl). split; [exact Hne |]. by apply stripped_ends.
Qed.

End BlacklistedUsernameAddForm_ends.

(** ** Construction, on any set of fields *)
Section init_more.
Context `{Collaborators}.

(** X20: [UserEditForm.__init__] removes the 'recaptcha' field and no
    other, on whatever fields the class has.  Its own deletion is guarded
    by [fields.get], that of the base class is not: when
    settings.RECAPTCHA_PRIVATE_KEY is false in an [if] and there is no
    'recaptcha' field, the base class raises KeyError('recaptcha'). *)
Theorem edit_init_removes_only_recaptcha (fields : gmap string Field) :
  UserEditForm.__init__ fields
  = if truthy RECAPTCHA_PRIVATE_KEY || bool_decide (is_Some (fields !! "recaptcha"))
    then Return (delete "recaptcha" fields)
    else Raise (KeyError "recaptcha").
Proof.
  unfold UserEditForm.__init__, UserRegisterForm.__init__, delitem.
  destruct (truthy RECAPTCHA_PRIVATE_KEY); simpl.
  - destruct (fields !! "recaptcha") eqn:Hf; [reflexivity |].
    by rewrite delete_id.
  - destruct (fields !! "recaptcha") eqn:Hf; simpl.
    + by rewrite lookup_delete_eq.
    + reflexivity.
Qed.

End init_more.
